(** * Reddit-Stock-Tracker: a shallow embedding of the traversal pipeline

    Sources embedded:
    - [src/utils.py]: [make_api_call], [parse_json_for_post_ids],
      [extract_submission_data], [parse_json_for_post_content],
      [parse_json_for_comment_content], [parse_json_for_reply_content];
    - [src/validator.py]: [SECTickerValidator.validate] and [load_tickers];
    - [src/stocks_db.py]: [StocksDB.insert];
    - [src/reddit_stocks.py]: [RedditStockTracker.fetch_comment_data],
      [fetch_reply_data], [fetch_post_data_and_comment_ids], [process], and
      the [asyncio.Semaphore] that gates the post and comment fetches.

    Decoded JSON is the Python value [json.loads] produces: [None], bools,
    numbers, strings, lists and dicts.  Python exceptions are values of an
    error monad; strings are [String.string] holding ASCII text. *)

From Stdlib Require Import List String Ascii Bool Arith Lia ZArith.
From Stdlib Require Import Sorting.Sorted Structures.OrdersEx Classes.RelationClasses.
Import ListNotations.
Open Scope string_scope.
Open Scope list_scope.
Open Scope bool_scope.
Set Warnings "-register-all".

(* ------------------------------------------------------------------ *)
(** ** Python values and exceptions *)

Inductive Json : Type :=
| JNull : Json
| JBool : bool -> Json
| JNum : Z -> Json
| JStr : string -> Json
| JList : list Json -> Json
| JObj : list (string * Json) -> Json.

Inductive PyExc : Type :=
| KeyError | TypeError | IndexError | AttributeError.

Inductive PyRes (A : Type) : Type :=
| Ok : A -> PyRes A
| Exc : PyExc -> PyRes A.
Arguments Ok {A} _.
Arguments Exc {A} _.

Definition py_bind {A B} (m : PyRes A) (k : A -> PyRes B) : PyRes B :=
  match m with Ok a => k a | Exc e => Exc e end.

Notation "x <- m ;; k" := (py_bind m (fun x => k))
  (at level 61, m at next level, right associativity).

(** [try: ... except (E1, ..., En):] *)
Definition py_catch {A} (caught : list PyExc) (m : PyRes A) (handler : PyRes A)
  : PyRes A :=
  match m with
  | Ok a => Ok a
  | Exc e => if existsb (fun e' =>
                 match e, e' with
                 | KeyError, KeyError | TypeError, TypeError
                 | IndexError, IndexError | AttributeError, AttributeError => true
                 | _, _ => false
                 end) caught
             then handler else Exc e
  end.

Fixpoint assoc_lookup (k : string) (kv : list (string * Json)) : option Json :=
  match kv with
  | [] => None
  | (k', v) :: kv' => if String.eqb k k' then Some v else assoc_lookup k kv'
  end.

(** Truthiness ([bool(v)]). *)
Definition truthy (v : Json) : bool :=
  match v with
  | JNull => false
  | JBool b => b
  | JNum z => negb (Z.eqb z 0)
  | JStr s => negb (String.eqb s EmptyString)
  | JList l => match l with [] => false | _ => true end
  | JObj kv => match kv with [] => false | _ => true end
  end.

(** [v.get(k, d)]: only dicts have a [get] method. *)
Definition py_get (v : Json) (k : string) (d : Json) : PyRes Json :=
  match v with
  | JObj kv => match assoc_lookup k kv with Some x => Ok x | None => Ok d end
  | _ => Exc AttributeError
  end.

(** [v[k]] with a string key. *)
Definition py_getitem_key (v : Json) (k : string) : PyRes Json :=
  match v with
  | JObj kv => match assoc_lookup k kv with Some x => Ok x | None => Exc KeyError end
  | _ => Exc TypeError
  end.

(** [v[i]] with a non-negative integer index. *)
Definition py_getitem_idx (v : Json) (i : nat) : PyRes Json :=
  match v with
  | JList l => match nth_error l i with Some x => Ok x | None => Exc IndexError end
  | JStr s => match String.get i s with
              | Some c => Ok (JStr (String c EmptyString))
              | None => Exc IndexError
              end
  | JObj _ => Exc KeyError          (* dict keys of decoded JSON are strings *)
  | _ => Exc TypeError
  end.

Fixpoint chars_of (s : string) : list Json :=
  match s with
  | EmptyString => []
  | String c s' => JStr (String c EmptyString) :: chars_of s'
  end.

(** [for x in v] / [list.extend(v)]: the items iteration yields. *)
Definition py_iter (v : Json) : PyRes (list Json) :=
  match v with
  | JList l => Ok l
  | JObj kv => Ok (map (fun p => JStr (fst p)) kv)
  | JStr s => Ok (chars_of s)
  | _ => Exc TypeError
  end.

(** [isinstance(v, dict)] *)
Definition is_dict (v : Json) : bool :=
  match v with JObj _ => true | _ => false end.

(* ------------------------------------------------------------------ *)
(** ** String methods (ASCII) *)

(** [str.isspace] on an ASCII character. *)
Definition is_space (c : ascii) : bool :=
  let n := nat_of_ascii c in
  (Nat.leb 9 n && Nat.leb n 13) || (Nat.leb 28 n && Nat.leb n 32).

Fixpoint lstrip (s : string) : string :=
  match s with
  | EmptyString => EmptyString
  | String c s' => if is_space c then lstrip s' else s
  end.

Fixpoint rev_str (s : string) (acc : string) : string :=
  match s with
  | EmptyString => acc
  | String c s' => rev_str s' (String c acc)
  end.

Definition rstrip (s : string) : string :=
  rev_str (lstrip (rev_str s EmptyString)) EmptyString.

(** [str.strip()] *)
Definition strip (s : string) : string := rstrip (lstrip s).

(** [str.upper()] on ASCII text. *)
Definition upper_char (c : ascii) : ascii :=
  let n := nat_of_ascii c in
  if Nat.leb 97 n && Nat.leb n 122 then ascii_of_nat (n - 32) else c.

Fixpoint upper (s : string) : string :=
  match s with
  | EmptyString => EmptyString
  | String c s' => String (upper_char c) (upper s')
  end.

Definition dollar : ascii := "$"%char.

(** [if t.startswith('$'): t = t[1:]] *)
Definition drop_dollar (s : string) : string :=
  match s with
  | String c s' => if Ascii.eqb c dollar then s' else s
  | EmptyString => EmptyString
  end.

(** [a.strip()] for a value of any type. *)
Definition py_strip (v : Json) : PyRes string :=
  match v with JStr s => Ok (strip s) | _ => Exc AttributeError end.

(** [a + b] where [a] is a [str]. *)
Definition py_str_add (a : string) (b : Json) : PyRes string :=
  match b with JStr s => Ok (String.append a s) | _ => Exc TypeError end.

(* ------------------------------------------------------------------ *)
(** ** [utils.py]: submission records and the JSON parsers *)

(** [NUM_COMMENTS_PER_POST] of [utils.py] (a module constant). *)
Definition NUM_COMMENTS_PER_POST : nat := 5.

Inductive SubmissionType : Type := POST | COMMENT | REPLY.

(** [utils.SubmissionData]: fields hold whatever the JSON dict held. *)
Record SubmissionData : Type := mkSubmissionData {
  submission_id : Json;
  score : Json;
  created_utc : Json;
  author : Json;
  subreddit : Json;
  stype : SubmissionType
}.

(** The loop of [parse_json_for_post_ids]: the list built so far, and the
    exception that stopped the loop, if any. *)
Fixpoint post_ids_loop (acc : list Json) (children : list Json)
  : list Json * option PyExc :=
  match children with
  | [] => (acc, None)
  | child :: rest =>
      match py_get child "data" (JObj []) with
      | Exc e => (acc, Some e)
      | Ok d =>
          match py_get d "id" JNull with
          | Exc e => (acc, Some e)
          | Ok post_id =>
              post_ids_loop (if truthy post_id then acc ++ [post_id] else acc) rest
          end
      end
  end.

Definition caught_ids (e : PyExc) : bool :=
  match e with KeyError | TypeError => true | _ => false end.

(** [parse_json_for_post_ids]: [post_ids] lives outside the [try], so the
    handler returns what was appended before the exception. *)
Definition parse_json_for_post_ids (raw_json : Json) : PyRes (list Json) :=
  let r :=
    match (d <- py_get raw_json "data" (JObj []);;
           ch <- py_get d "children" (JList []);;
           py_iter ch) with
    | Exc e => ([], Some e)
    | Ok children => post_ids_loop [] children
    end in
  match r with
  | (ids, None) => Ok ids
  | (ids, Some e) => if caught_ids e then Ok ids else Exc e
  end.

(** [extract_submission_data] *)
Definition extract_submission_data (js : Json) (ty : SubmissionType)
  : PyRes (string * SubmissionData) :=
  a <- py_get js "selftext" (JStr "");;
  sa <- py_strip a;;
  text <- (if String.eqb sa "" then
             (b <- py_get js "body" (JStr "");; py_strip b)
           else Ok sa);;
  t <- py_get js "title" (JStr "");;
  let title := if truthy t then t else JStr "" in
  post_text_and_title <- py_str_add text title;;
  sid <- py_get js "id" (JStr "");;
  sc <- py_get js "score" (JNum 0);;
  cu <- py_get js "created_utc" (JNum 0);;
  au <- py_get js "author" (JStr "Unknown");;
  sr <- py_get js "subreddit" (JStr "Unknown");;
  Ok (post_text_and_title, mkSubmissionData sid sc cu au sr ty).

Definition parse_caught : list PyExc := [KeyError; TypeError; IndexError].

(** [for i, comment in enumerate(comments_data): if i >= NUM_COMMENTS_PER_POST: break ...] *)
Fixpoint comment_ids_loop (i : nat) (acc : list Json) (items : list Json)
  : PyRes (list Json) :=
  match items with
  | [] => Ok acc
  | comment :: rest =>
      if Nat.leb NUM_COMMENTS_PER_POST i then Ok acc
      else
        d <- py_get comment "data" (JObj []);;
        comment_id <- py_get d "id" JNull;;
        comment_ids_loop (S i) (if truthy comment_id then acc ++ [comment_id] else acc) rest
  end.

(** [parse_json_for_post_content] *)
Definition parse_json_for_post_content (raw_json : Json)
  : PyRes (option SubmissionData * string * list Json) :=
  py_catch parse_caught
    (r1 <- py_getitem_idx raw_json 1;;
     d1 <- py_getitem_key r1 "data";;
     comments_data <- py_getitem_key d1 "children";;
     items <- py_iter comments_data;;
     comment_ids <- comment_ids_loop 0 [] items;;
     r0 <- py_getitem_idx raw_json 0;;
     d0 <- py_getitem_key r0 "data";;
     ch0 <- py_getitem_key d0 "children";;
     c0 <- py_getitem_idx ch0 0;;
     post_data <- py_getitem_key c0 "data";;
     res <- extract_submission_data post_data POST;;
     let '(post_text_and_title, submission_data) := res in
     Ok (Some submission_data, post_text_and_title, comment_ids))
    (Ok (None, "", [])).

(** [parse_json_for_comment_content] *)
Definition parse_json_for_comment_content (raw_json : Json)
  : PyRes (option SubmissionData * string * list Json) :=
  py_catch parse_caught
    (r1 <- py_getitem_idx raw_json 1;;
     d1 <- py_getitem_key r1 "data";;
     ch1 <- py_getitem_key d1 "children";;
     c0 <- py_getitem_idx ch1 0;;
     comment_data <- py_getitem_key c0 "data";;
     replies_structure <- py_get comment_data "replies" (JObj []);;
     reply_objects <-
       (if is_dict replies_structure then
          rd <- py_get replies_structure "data" (JObj []);;
          replies_children <- py_get rd "children" (JList []);;
          py_iter replies_children
        else Ok []);;
     res <- extract_submission_data comment_data COMMENT;;
     let '(comment_text_and_title, submission_data) := res in
     Ok (Some submission_data, comment_text_and_title, reply_objects))
    (Ok (None, "", [])).

(** [parse_json_for_reply_content] *)
Definition parse_json_for_reply_content (raw_json : Json)
  : PyRes (option SubmissionData * string) :=
  py_catch parse_caught
    (reply_data <- py_get raw_json "data" raw_json;;
     res <- extract_submission_data reply_data REPLY;;
     let '(reply_text, submission_data) := res in
     Ok (Some submission_data, reply_text))
    (Ok (None, "")).

(* ------------------------------------------------------------------ *)
(** ** [validator.py]: [SECTickerValidator.validate] *)

Definition EXCLUSION_LIST : list string := ["EDIT"; "AI"; "WELL"; "LOT"].

(** [x in S] for a Python set of strings. *)
Definition mem (x : string) (S : list string) : bool := existsb (String.eqb x) S.

(** [S.add(x)] *)
Definition set_add (x : string) (S : list string) : list string :=
  if mem x S then S else x :: S.

Definition newline : ascii := "010"%char.

(** [text.split('\n')] *)
Fixpoint split_lines_aux (s cur : string) : list string :=
  match s with
  | EmptyString => [cur]
  | String c s' =>
      if Ascii.eqb c newline then cur :: split_lines_aux s' EmptyString
      else split_lines_aux s' (String.append cur (String c EmptyString))
  end.

Definition split_lines (s : string) : list string := split_lines_aux s EmptyString.

Definition max_chars : nat := 1200.

(** The [for line in lines] loop, from [current_chunk] on. *)
Fixpoint chunk_loop (lines : list string) (current_chunk : string) : list string :=
  match lines with
  | [] => if String.eqb current_chunk "" then [] else [strip current_chunk]
  | line :: rest =>
      if Nat.leb (String.length current_chunk + String.length line + 1) max_chars
      then chunk_loop rest
             (String.append current_chunk (String.append line (String newline EmptyString)))
      else (if String.eqb current_chunk "" then [] else [strip current_chunk])
           ++ chunk_loop rest (String.append line (String newline EmptyString))
  end.

(** The chunks handed to the entity model. *)
Definition chunks_of (text : string) : list string :=
  if Nat.ltb max_chars (String.length text) then chunk_loop (split_lines text) ""
  else [text].

(** Per-entity normalisation: [.strip()], drop a leading ['$'], [.upper()]. *)
Definition normalize (entity_text : string) : string :=
  upper (drop_dollar (strip entity_text)).

(** [ticker_upper in self.valid_tickers and ticker_upper not in EXCLUSION_LIST] *)
Definition keep (valid_tickers : list string) (t : string) : bool :=
  mem t valid_tickers && negb (mem t EXCLUSION_LIST).

(** The entity model: [predict_entities chunk] returns the list of entities
    or raises ([None]); an entity is its ['text'] string, or [None] when
    [entity['text'].strip()] raises. *)
Definition Predict := string -> option (list (option string)).

(** [for entity in entities: ...]; the flag tells that an exception
    left the loop. *)
Fixpoint entity_loop (valid_tickers : list string) (found : list string)
  (entities : list (option string)) : list string * bool :=
  match entities with
  | [] => (found, false)
  | None :: _ => (found, true)
  | Some t :: rest =>
      let ticker_upper := normalize t in
      entity_loop valid_tickers
        (if keep valid_tickers ticker_upper then set_add ticker_upper found else found)
        rest
  end.

(** [for chunk in chunks: ...] inside the [try]; an exception ends the
    [try] body, and [except Exception] resumes after it. *)
Fixpoint chunks_loop (valid_tickers : list string) (predict : Predict)
  (found : list string) (chunks : list string) : list string :=
  match chunks with
  | [] => found
  | chunk :: rest =>
      match predict chunk with
      | None => found
      | Some entities =>
          let '(found', raised) := entity_loop valid_tickers found entities in
          if raised then found' else chunks_loop valid_tickers predict found' rest
      end
  end.

(** [sorted(...)] on strings. *)
Fixpoint insert_sorted (x : string) (l : list string) : list string :=
  match l with
  | [] => [x]
  | y :: l' => if String.leb x y then x :: l else y :: insert_sorted x l'
  end.

Fixpoint py_sorted (l : list string) : list string :=
  match l with
  | [] => []
  | x :: l' => insert_sorted x (py_sorted l')
  end.

(** [SECTickerValidator.validate] *)
Definition validate (valid_tickers : list string) (predict : Predict) (text : string)
  : list string :=
  py_sorted (chunks_loop valid_tickers predict [] (chunks_of text)).

(** An entity model that never raises, from its entity texts. *)
Definition total_predict (ext : string -> list string) : Predict :=
  fun chunk => Some (map Some (ext chunk)).

(* ------------------------------------------------------------------ *)
(** ** [utils.make_api_call] *)

(** What one [session.get] yields: a 2xx response whose [.json()] decodes
    to a value, a 429, or any other failure ([raise_for_status], transport
    error, undecodable body), which the [except Exception] turns into [None]. *)
Inductive HttpOutcome : Type :=
| Resp200 : Json -> HttpOutcome
| Resp429 : HttpOutcome
| RespFail : HttpOutcome.

Inductive Effect : Type :=
| EGet : Effect
| ESleep : nat -> Effect.

Definition MAX_RETRIES : nat := 1.

(** [make_api_call(url, session, params, retry_count)]: [server] lists the
    outcomes of the successive GETs of this URL (an exhausted list is a
    connection failure).  Returns the result, the effects in order, and the
    outcomes left. *)
Fixpoint make_api_call (retry_count : nat) (server : list HttpOutcome)
  : option Json * list Effect * list HttpOutcome :=
  match server with
  | [] => (None, [EGet], [])
  | Resp429 :: rest =>
      if Nat.leb MAX_RETRIES retry_count then (None, [EGet], rest)
      else
        let '(r, eff, rest') := make_api_call (S retry_count) rest in
        (r, EGet :: ESleep 60 :: eff, rest')
  | Resp200 j :: rest => (Some j, [EGet], rest)
  | RespFail :: rest => (None, [EGet], rest)
  end.

(** The number of GETs among the effects. *)
Definition count_gets (eff : list Effect) : nat :=
  List.length (filter (fun e => match e with EGet => true | ESleep _ => false end) eff).

(** [if not raw:] on a [make_api_call] result. *)
Definition py_falsy (r : option Json) : bool :=
  match r with None => true | Some j => negb (truthy j) end.

(* ------------------------------------------------------------------ *)
(** ** [reddit_stocks.py]: the tracker's tasks *)

(** The requests the tracker issues (the URL is determined by these ids). *)
Inductive Req : Type :=
| ReqListing : Req
| ReqPost : Json -> Req                 (* post id *)
| ReqComment : Json -> Json -> Req.     (* post id, comment id *)

(** One [db.insert(tickers, submission)] call. *)
Definition Row : Type := (list string * SubmissionData)%type.

(** Tasks run with the database log as state and may raise. *)
Definition M (A : Type) : Type := list Row -> PyRes A * list Row.

Definition ret {A} (a : A) : M A := fun db => (Ok a, db).

Definition bindM {A B} (m : M A) (k : A -> M B) : M B :=
  fun db => match m db with
            | (Ok a, db') => k a db'
            | (Exc e, db') => (Exc e, db')
            end.

Definition lift {A} (r : PyRes A) : M A := fun db => (r, db).

Definition db_insert (tickers : list string) (sd : SubmissionData) : M unit :=
  fun db => (Ok tt, db ++ [(tickers, sd)]).

Notation "x <-- m ;;; k" := (bindM m (fun x => k))
  (at level 61, m at next level, right associativity).

(** [asyncio.gather] over a list of tasks: the results in task order; an exception of
    one task propagates out of the [await]. *)
Fixpoint gather {A} (ms : list (M A)) : M (list A) :=
  match ms with
  | [] => ret []
  | m :: ms' => a <-- m ;;; rest <-- gather ms' ;;; ret (a :: rest)
  end.

Section Tracker.

  (** [make_api_call] as the tracker sees it, per request. *)
Variable api : Req -> option Json.
  (** [self.validator.validate] *)
Variable vld : string -> list string.

  (** [if submission_data and text: tickers = validate(text); if tickers: insert] *)
Definition validate_and_insert (sd : option SubmissionData) (text : string) : M unit :=
    match sd with
    | Some sd =>
        if String.eqb text "" then ret tt
        else let tickers := vld text in
             match tickers with [] => ret tt | _ => db_insert tickers sd end
    | None => ret tt
    end.

  (** [fetch_post_data_and_comment_ids] *)
Definition fetch_post_data_and_comment_ids (post_id : Json) : M (list Json) :=
    let raw_post_json := api (ReqPost post_id) in
    match raw_post_json with
    | Some raw => if negb (truthy raw) then ret [] else
        res <-- lift (parse_json_for_post_content raw) ;;;
        let '(submission_data, post_text, comment_ids) := res in
        _ <-- validate_and_insert submission_data post_text ;;;
        ret comment_ids
    | None => ret []
    end.

  (** [fetch_comment_data] *)
Definition fetch_comment_data (comment_id post_id : Json) : M (list Json) :=
    let raw_thread_json := api (ReqComment post_id comment_id) in
    match raw_thread_json with
    | Some raw => if negb (truthy raw) then ret [] else
        res <-- lift (parse_json_for_comment_content raw) ;;;
        let '(comment_submission_data, comment_text, reply_objects) := res in
        _ <-- validate_and_insert comment_submission_data comment_text ;;;
        ret reply_objects
    | None => ret []
    end.

  (** [fetch_reply_data] *)
Definition fetch_reply_data (reply : Json) : M unit :=
    res <-- lift (parse_json_for_reply_content reply) ;;;
    let '(reply_submission_data, reply_text) := res in
    validate_and_insert reply_submission_data reply_text.

  (** [for i, comment_ids in enumerate(post_results): parent_post_id = post_ids[i];
       for comment_id in comment_ids: ...]: the (comment id, parent post id)
      argument pairs of the comment tasks. *)
Fixpoint comment_task_args (post_ids : list Json) (i : nat)
    (post_results : list (list Json)) : PyRes (list (Json * Json)) :=
    match post_results with
    | [] => Ok []
    | comment_ids :: rest =>
        match nth_error post_ids i with
        | None => Exc IndexError
        | Some parent_post_id =>
            tl <- comment_task_args post_ids (S i) rest ;;
            Ok (map (fun c => (c, parent_post_id)) comment_ids ++ tl)
        end
    end.

  (** [process] *)
Definition process : M unit :=
    match api ReqListing with
    | None => ret tt
    | Some raw_listing_json =>
        if negb (truthy raw_listing_json) then ret tt else
        post_ids <-- lift (parse_json_for_post_ids raw_listing_json) ;;;
        post_results <-- gather (map fetch_post_data_and_comment_ids post_ids) ;;;
        args <-- lift (comment_task_args post_ids 0 post_results) ;;;
        comment_results <-- gather (map (fun a => fetch_comment_data (fst a) (snd a)) args) ;;;
        _ <-- gather (map fetch_reply_data (List.concat comment_results)) ;;;
        ret tt
    end.

End Tracker.

(* ------------------------------------------------------------------ *)
(** ** The shared [asyncio.Semaphore(max_concurrent_requests)]

    The post tasks and then the comment tasks each run
    [async with self.semaphore: raw = await make_api_call(...); ...]
    and parse outside the block.  A task is in one of four phases: parked
    at the [async with], inside it (its fetch in flight), past it (parsing,
    validating, inserting), or done.  The scheduler launches one tier's
    tasks and awaits all of them before launching the next tier. *)

Module Sem.

Inductive Tier : Type := PostTier | CommentTier.

Inductive Phase : Type :=
| Waiting         (* blocked in [semaphore.acquire()] *)
| InFlight        (* holds a permit; [make_api_call] pending *)
| Released        (* left the [async with]; parsing and persistence *)
| Finished.

Record State : Type := mkState {
  sem_value : nat;                  (* [Semaphore._value] *)
  tasks : list (Tier * Phase)
}.

Definition is_inflight (t : Tier * Phase) : bool :=
  match snd t with InFlight => true | _ => false end.

Definition in_flight (s : State) : nat := List.length (filter is_inflight (tasks s)).

Fixpoint set_phase (l : list (Tier * Phase)) (i : nat) (p : Phase)
  : list (Tier * Phase) :=
  match l, i with
  | [], _ => []
  | (t, _) :: l', 0 => (t, p) :: l'
  | x :: l', S i' => x :: set_phase l' i' p
  end.

Definition all_finished (s : State) : bool :=
  forallb (fun t => match snd t with Finished => true | _ => false end) (tasks s).

(** Interleavings of the event loop. *)
Inductive step : State -> State -> Prop :=
| step_launch : forall s tier n,
    all_finished s = true ->
    step s (mkState (sem_value s) (tasks s ++ repeat (tier, Waiting) n))
| step_acquire : forall s i tier,
    nth_error (tasks s) i = Some (tier, Waiting) ->
    0 < sem_value s ->
    step s (mkState (sem_value s - 1) (set_phase (tasks s) i InFlight))
| step_release : forall s i tier,
    nth_error (tasks s) i = Some (tier, InFlight) ->
    step s (mkState (S (sem_value s)) (set_phase (tasks s) i Released))
| step_finish : forall s i tier,
    nth_error (tasks s) i = Some (tier, Released) ->
    step s (mkState (sem_value s) (set_phase (tasks s) i Finished)).

Inductive reachable (C : nat) : State -> Prop :=
| reach_init : reachable C (mkState C [])
| reach_step : forall s s', reachable C s -> step s s' -> reachable C s'.

End Sem.

(* ------------------------------------------------------------------ *)
(** ** Derived views and sample responses *)

(** The id [comment.get("data", {}).get("id")] of one child, kept when truthy. *)
Definition child_id (item : Json) : list Json :=
  match (d <- py_get item "data" (JObj []);; py_get d "id" JNull) with
  | Ok cid => if truthy cid then [cid] else []
  | Exc _ => []
  end.

(** A string field of a submission dict, [""] when absent. *)
Definition str_field (kv : list (string * Json)) (k : string) : string :=
  match assoc_lookup k kv with Some (JStr s) => s | _ => "" end.

(** The field is absent or holds a string. *)
Definition str_or_absent (kv : list (string * Json)) (k : string) : Prop :=
  match assoc_lookup k kv with None => True | Some (JStr _) => True | Some _ => False end.

(** The text [extract_submission_data] builds from a submission dict:
    the stripped [selftext] if non-empty, else the stripped [body], then the
    title, [""] when absent or not a string. *)
Definition submission_text (kv : list (string * Json)) : string :=
  String.append
    (if String.eqb (strip (str_field kv "selftext")) ""
     then strip (str_field kv "body") else strip (str_field kv "selftext"))
    (str_field kv "title").

(** The [title] is absent, a string, or a falsy value (which
    [title if title else ""] turns into [""]). *)
Definition title_ok (kv : list (string * Json)) : Prop :=
  match assoc_lookup "title" kv with
  | None | Some (JStr _) => True
  | Some v => truthy v = false
  end.

(** [make_api_call(url, session)] per request, given each URL's outcomes. *)
Definition api_of (server : Req -> list HttpOutcome) (r : Req) : option Json :=
  fst (fst (make_api_call 0 (server r))).

(** A listing: [{"data": {"children": [{"data": {"id": ...}}, ...]}}]. *)
Definition listing_response (ids : list string) : Json :=
  JObj [("data", JObj [("children",
          JList (map (fun i => JObj [("data", JObj [("id", JStr i)])]) ids))])].

(** A post view: [[{post listing}, {"data": {"children": comments}}]]. *)
Definition post_response (post : list (string * Json)) (comments : list Json) : Json :=
  JList [JObj [("data", JObj [("children", JList [JObj [("data", JObj post)]])])];
         JObj [("data", JObj [("children", JList comments)])]].

Definition comment_child (cid : string) : Json :=
  JObj [("kind", JStr "t1"); ("data", JObj [("id", JStr cid)])].

(** A comment view whose first comment has [fields] and the given replies. *)
Definition comment_response (fields : list (string * Json)) (replies : list Json) : Json :=
  JList [JObj [("data", JObj [("children", JList [])])];
         JObj [("data", JObj [("children", JList [JObj [("data", JObj
           (("replies", JObj [("data", JObj [("children", JList replies)])]) :: fields))]])])]].

Fixpoint str_repeat (n : nat) (c : ascii) : string :=
  match n with 0 => EmptyString | S n' => String c (str_repeat n' c) end.

(** Sample run: [p1] mentions TSLA and has comment [c1] (mentioning GME);
    [p2]'s post view is [p2_view]. *)
Definition p1_view : Json :=
  post_response [("id", JStr "p1"); ("selftext", JStr "TSLA to the moon")] [comment_child "c1"].

Definition c1_view : Json :=
  comment_response [("id", JStr "c1"); ("body", JStr "GME")] [].

Definition sample_api (p2_view : Json) (r : Req) : option Json :=
  match r with
  | ReqListing => Some (listing_response ["p1"; "p2"])
  | ReqPost (JStr p) =>
      if String.eqb p "p1" then Some p1_view
      else if String.eqb p "p2" then Some p2_view else None
  | ReqComment (JStr p) (JStr c) =>
      if String.eqb p "p1" && String.eqb c "c1" then Some c1_view else None
  | _ => None
  end.

(** A validator finding TSLA or GME at the start of the text. *)
Definition sample_vld (text : string) : list string :=
  if String.prefix "TSLA" text then ["TSLA"]
  else if String.prefix "GME" text then ["GME"] else [].

(* ------------------------------------------------------------------ *)
(** ** [validator.py]: [SECTickerValidator.load_tickers] *)

(** [d.values()]: only dicts have a [values] method. *)
Definition py_values (v : Json) : PyRes (list Json) :=
  match v with JObj kv => Ok (map snd kv) | _ => Exc AttributeError end.

(** Lists and dicts are unhashable. *)
Definition hashable (v : Json) : bool :=
  match v with JList _ | JObj _ => false | _ => true end.

Definition num_of_scalar (v : Json) : option Z :=
  match v with
  | JBool b => Some (if b then 1%Z else 0%Z)
  | JNum z => Some z
  | _ => None
  end.

(** [a == b] on hashable values ([True == 1], [False == 0]). *)
Definition py_eq_hashable (a b : Json) : bool :=
  match a, b with
  | JNull, JNull => true
  | JStr s, JStr t => String.eqb s t
  | _, _ =>
      match num_of_scalar a, num_of_scalar b with
      | Some x, Some y => Z.eqb x y
      | _, _ => false
      end
  end.

(** [S.add(x)] on a Python set of JSON values. *)
Definition py_set_add (x : Json) (st : list Json) : PyRes (list Json) :=
  if hashable x then Ok (if existsb (py_eq_hashable x) st then st else x :: st)
  else Exc TypeError.

(** [for entry in data.values(): ticker = entry['ticker']; self.valid_tickers.add(ticker)] *)
Fixpoint add_tickers (st : list Json) (entries : list Json) : PyRes (list Json) :=
  match entries with
  | [] => Ok st
  | entry :: rest =>
      ticker <- py_getitem_key entry "ticker";;
      st' <- py_set_add ticker st;;
      add_tickers st' rest
  end.

(** [load_tickers]: [response] is the decoded body of the SEC request, or
    [None] when [session.get], [raise_for_status] or [response.json()]
    raised.  Any exception inside the [try] replaces the set by [FALLBACK]. *)
Definition load_tickers (valid_tickers FALLBACK : list Json) (response : option Json)
  : list Json :=
  match response with
  | None => FALLBACK
  | Some data =>
      match (entries <- py_values data;; add_tickers valid_tickers entries) with
      | Ok st => st
      | Exc _ => FALLBACK
      end
  end.

(** An entry the loop cannot add: no ['ticker'], or an unhashable one. *)
Definition bad_entry (entry : Json) : bool :=
  match py_getitem_key entry "ticker" with
  | Exc _ => true
  | Ok t => negb (hashable t)
  end.

(* ------------------------------------------------------------------ *)
(** ** [stocks_db.py]: [StocksDB.insert] *)

(** [submission.type.value] for [utils.SubmissionType], the class of the
    records the tracker passes. *)
Definition type_value (t : SubmissionType) : Json :=
  match t with POST => JNum 0 | COMMENT => JNum 1 | REPLY => JNum 2 end.

(** The statements [insert] sends on the cursor and the connection. *)
Inductive SqlStmt : Type :=
| SqlInsert : list Json -> SqlStmt    (* the seven parameters of the INSERT *)
| SqlCommit : SqlStmt.

Section StocksDB.

  (** [datetime.fromtimestamp(x, tz=timezone.utc)]; [None] when it raises. *)
Variable fromtimestamp : Json -> option Json.
  (** Whether the server accepts one INSERT (it raises otherwise). *)
Variable accepts : list Json -> bool.

Definition insert_params (ticker : string) (submission : SubmissionData) (created_dt : Json)
  : list Json :=
  [submission_id submission; JStr ticker; author submission; subreddit submission;
   score submission; type_value (stype submission); created_dt].

(** [for ticker in tickers: self.cur.execute(...)]: the statements sent, and
    whether the loop ran to its end. *)
Fixpoint insert_loop (tickers : list string) (submission : SubmissionData) (created_dt : Json)
  : list SqlStmt * bool :=
  match tickers with
  | [] => ([], true)
  | ticker :: rest =>
      let p := insert_params ticker submission created_dt in
      if accepts p then
        let '(stmts, ok) := insert_loop rest submission created_dt in
        (SqlInsert p :: stmts, ok)
      else ([SqlInsert p], false)
  end.

(** [StocksDB.insert]: the statements sent, and whether it returned
    ([false]: an exception left it). *)
Definition insert (tickers : list string) (submission : SubmissionData)
  : list SqlStmt * bool :=
  match fromtimestamp (created_utc submission) with
  | None => ([], false)
  | Some created_dt =>
      let '(stmts, ok) := insert_loop tickers submission created_dt in
      if ok then (stmts ++ [SqlCommit], true) else (stmts, false)
  end.

End StocksDB.

(* ------------------------------------------------------------------ *)
(** ** Effects of the tracker's tasks on the insert log *)

(** [m] only appends to the log, and every row it appends satisfies [P]. *)
Definition appends {A} (P : Row -> Prop) (m : M A) : Prop :=
  forall db, exists new, snd (m db) = db ++ new /\ Forall P new.

(** [m] appends at most one row, satisfying [P]. *)
Definition one_row {A} (P : Row -> Prop) (m : M A) : Prop :=
  forall db, exists new, snd (m db) = db ++ new /\ List.length new <= 1 /\ Forall P new.

(** A row as [validate_and_insert] writes it: a non-empty ticker list that
    the validator returned for a non-empty text, for a submission of type [ty]. *)
Definition validated_row (vld : string -> list string) (ty : SubmissionType) (row : Row) : Prop :=
  stype (snd row) = ty /\ fst row <> [] /\ exists t, t <> "" /\ fst row = vld t.

(** A child of a comment listing whose [data] is a dict (or absent). *)
Definition child_ok (c : Json) : bool :=
  match py_get c "data" (JObj []) with Ok d => is_dict d | Exc _ => false end.

(** A text of two long lines, which [validate] splits into two chunks. *)
Definition aapl_line : string := String.append "AAPL " (str_repeat 700 "x").
Definition gme_line : string := String.append "GME " (str_repeat 700 "y").
Definition two_chunk_text : string := String.append aapl_line (String newline gme_line).

(** An entity model that finds AAPL in a chunk starting with it and raises
    on every other chunk. *)
Definition aapl_only_model : Predict :=
  fun chunk => if String.prefix "AAPL" chunk then Some [Some "AAPL"] else None.

(* ================================================================== *)
(** * Properties *)

(* ------------------------------------------------------------------ *)
(** ** Validator: set, sort and membership lemmas *)

Module ValidatorFacts.

Abbreviation slt := String_as_OT.lt.

Lemma ascii_compare_OT (a b : ascii) : Ascii.compare a b = Ascii_as_OT.compare a b.
Proof. reflexivity. Qed.

Lemma string_compare_OT (a b : string) : String.compare a b = String_as_OT.compare a b.
Proof.
  revert b; induction a as [|c a IH]; destruct b as [|d b]; simpl; try reflexivity.
Qed.

Lemma slt_irrefl (x : string) : ~ slt x x.
Proof. apply StrictOrder_Irreflexive. Qed.

Lemma slt_trans (x y z : string) : slt x y -> slt y z -> slt x z.
Proof. apply StrictOrder_Transitive. Qed.

Lemma leb_true_lt (x y : string) : String.leb x y = true -> x <> y -> slt x y.
Proof.
  unfold String.leb, slt. rewrite string_compare_OT.
  destruct (String_as_OT.compare_spec x y); congruence.
Qed.

Lemma leb_false_lt (x y : string) : String.leb x y = false -> slt y x.
Proof.
  unfold String.leb, slt. rewrite string_compare_OT.
  destruct (String_as_OT.compare_spec x y) as [H|H|H]; intro E; try discriminate.
  exact H.
Qed.

Lemma mem_In (x : string) (S : list string) : mem x S = true <-> In x S.
Proof.
  unfold mem. rewrite existsb_exists. split.
  - intros [y [Hy Heq]]. apply String.eqb_eq in Heq. subst. exact Hy.
  - intros H. exists x. split; [exact H | apply String.eqb_refl].
Qed.

Lemma keep_spec (v : list string) (t : string) :
  keep v t = true <-> In t v /\ ~ In t EXCLUSION_LIST.
Proof.
  unfold keep. rewrite andb_true_iff, negb_true_iff, mem_In.
  split.
  - intros [H1 H2]. split; [exact H1|]. intro H. apply mem_In in H. congruence.
  - intros [H1 H2]. split; [exact H1|]. destruct (mem t EXCLUSION_LIST) eqn:E; auto.
    apply mem_In in E. contradiction.
Qed.

Lemma set_add_In (x y : string) (S : list string) :
  In y (set_add x S) <-> y = x \/ In y S.
Proof.
  unfold set_add. destruct (mem x S) eqn:E.
  - apply mem_In in E. split; [auto|]. intros [->|H]; auto.
  - simpl. split; intros [H|H]; auto.
Qed.

Lemma set_add_NoDup (x : string) (S : list string) : NoDup S -> NoDup (set_add x S).
Proof.
  intros H. unfold set_add. destruct (mem x S) eqn:E; [exact H|].
  constructor; [|exact H]. intro Hin. apply mem_In in Hin. congruence.
Qed.

Lemma insert_sorted_In (x y : string) (l : list string) :
  In y (insert_sorted x l) <-> y = x \/ In y l.
Proof.
  induction l as [|z l IH]; simpl.
  - intuition congruence.
  - destruct (String.leb x z); simpl; [intuition congruence|]. rewrite IH. intuition congruence.
Qed.

Lemma py_sorted_In (y : string) (l : list string) : In y (py_sorted l) <-> In y l.
Proof.
  induction l as [|x l IH]; simpl; [tauto|].
  rewrite insert_sorted_In, IH. split; intros [H|H]; auto.
Qed.

Lemma insert_sorted_sorted (x : string) (l : list string) :
  StronglySorted slt l -> ~ In x l -> StronglySorted slt (insert_sorted x l).
Proof.
  induction l as [|z l IH]; intros Hs Hn; simpl.
  - repeat constructor.
  - inversion Hs as [|? ? Hs' Hf]; subst.
    destruct (String.leb x z) eqn:E.
    + assert (Hxz : slt x z) by (apply leb_true_lt; [exact E | intro; subst; apply Hn; left; reflexivity]).
      constructor; [exact Hs|]. constructor; [exact Hxz|].
      eapply Forall_impl; [|exact Hf]. intros a Ha. eapply slt_trans; eauto.
    + apply leb_false_lt in E.
      constructor.
      * apply IH; [exact Hs'|]. intro H. apply Hn. right. exact H.
      * apply Forall_forall. intros a Ha. apply insert_sorted_In in Ha.
        destruct Ha as [->|Ha]; [exact E|]. rewrite Forall_forall in Hf. auto.
Qed.

Lemma py_sorted_sorted (l : list string) : NoDup l -> StronglySorted slt (py_sorted l).
Proof.
  induction l as [|x l IH]; intros Hnd; simpl.
  - constructor.
  - inversion Hnd; subst. apply insert_sorted_sorted; [auto|].
    rewrite py_sorted_In. assumption.
Qed.

Lemma sorted_unique (l1 l2 : list string) :
  StronglySorted slt l1 -> StronglySorted slt l2 ->
  (forall x, In x l1 <-> In x l2) -> l1 = l2.
Proof.
  revert l2; induction l1 as [|a l1 IH]; intros l2 H1 H2 Heq.
  - destruct l2 as [|b l2]; [reflexivity|].
    exfalso. apply (proj2 (Heq b)). left. reflexivity.
  - destruct l2 as [|b l2].
    + exfalso. apply (proj1 (Heq a)). left. reflexivity.
    + inversion H1 as [|? ? H1' F1]; inversion H2 as [|? ? H2' F2]; subst.
      rewrite Forall_forall in F1, F2.
      assert (Hab : a = b).
      { destruct (proj1 (Heq a) (or_introl eq_refl)) as [|Ha]; [congruence|].
        destruct (proj2 (Heq b) (or_introl eq_refl)) as [|Hb]; [congruence|].
        exfalso. apply (slt_irrefl a). eapply slt_trans; [apply F1; exact Hb | apply F2; exact Ha]. }
      subst b. f_equal. apply IH; auto.
      intros x. split; intros Hx.
      * destruct (proj1 (Heq x) (or_intror Hx)) as [->|Hx']; [|exact Hx'].
        exfalso. apply (slt_irrefl x). apply F1. exact Hx.
      * destruct (proj2 (Heq x) (or_intror Hx)) as [->|Hx']; [|exact Hx'].
        exfalso. apply (slt_irrefl x). apply F2. exact Hx.
Qed.

End ValidatorFacts.

Module ValidatorLoops.
Import ValidatorFacts.

(** [s] is the normalised form of some candidate in [cs], registered and
    not excluded. *)
Definition vset (v : list string) (cs : list string) (s : string) : Prop :=
  exists c, In c cs /\ normalize c = s /\ keep v s = true.

Lemma entity_loop_total (v found cs : list string) :
  snd (entity_loop v found (map Some cs)) = false /\
  (forall s, In s (fst (entity_loop v found (map Some cs))) <-> In s found \/ vset v cs s).
Proof.
  revert found; induction cs as [|c cs IH]; intros found; simpl.
  - split; [reflexivity|]. intros s. split; [auto|]. intros [H|[c [[] _]]]. exact H.
  - destruct (IH (if keep v (normalize c) then set_add (normalize c) found else found))
      as [IH1 IH2].
    split; [exact IH1|]. intros s. rewrite IH2. unfold vset.
    destruct (keep v (normalize c)) eqn:Ek; [rewrite set_add_In|]; split.
    + intros [[->|H]|[c' [H1 H2]]].
      * right. exists c. split; [left; reflexivity|]. split; [reflexivity|exact Ek].
      * left. exact H.
      * right. exists c'. split; [right; exact H1|exact H2].
    + intros [H|[c' [[<-|H1] [H2 H3]]]].
      * left. right. exact H.
      * left. left. symmetry. exact H2.
      * right. exists c'. auto.
    + intros [H|[c' [H1 H2]]].
      * left. exact H.
      * right. exists c'. split; [right; exact H1|exact H2].
    + intros [H|[c' [[<-|H1] [H2 H3]]]].
      * left. exact H.
      * subst s. congruence.
      * right. exists c'. auto.
Qed.

Lemma entity_loop_NoDup (v found : list string) (ents : list (option string)) :
  NoDup found -> NoDup (fst (entity_loop v found ents)).
Proof.
  revert found; induction ents as [|[t|] ents IH]; intros found Hnd; simpl; auto.
  apply IH. destruct (keep v (normalize t)); auto using set_add_NoDup.
Qed.

Lemma chunks_loop_NoDup (v : list string) (p : Predict) (found chs : list string) :
  NoDup found -> NoDup (chunks_loop v p found chs).
Proof.
  revert found; induction chs as [|ch chs IH]; intros found Hnd; simpl; auto.
  destruct (p ch) as [ents|]; auto.
  pose proof (entity_loop_NoDup v found ents Hnd) as H.
  destruct (entity_loop v found ents) as [f' raised]. simpl in H.
  destruct raised; auto.
Qed.

Lemma chunks_loop_total (v : list string) (ext : string -> list string)
  (found chs : list string) (s : string) :
  In s (chunks_loop v (total_predict ext) found chs) <->
  In s found \/ vset v (flat_map ext chs) s.
Proof.
  revert found; induction chs as [|ch chs IH]; intros found; simpl.
  - unfold vset. split; [auto|]. intros [H|[c [[] _]]]. exact H.
  - change (total_predict ext ch) with (Some (map Some (ext ch))).
    destruct (entity_loop_total v found (ext ch)) as [H1 H2].
    destruct (entity_loop v found (map Some (ext ch))) as [f' raised] eqn:E.
    simpl in H1, H2. subst raised.
    rewrite IH, H2. unfold vset. split.
    + intros [[H|[c [Hc Hn]]]|[c [Hc Hn]]]; [auto| |];
        right; exists c; rewrite in_app_iff; auto.
    + intros [H|[c [Hc Hn]]]; [auto|]. apply in_app_iff in Hc as [Hc|Hc]; eauto.
Qed.

Lemma chunks_loop_failure (v : list string) (p : Predict) (ext : string -> list string)
  (found pre post : list string) (ch : string) :
  (forall c, In c pre -> p c = total_predict ext c) -> p ch = None ->
  chunks_loop v p found (pre ++ ch :: post) = chunks_loop v (total_predict ext) found pre.
Proof.
  revert found; induction pre as [|c pre IH]; intros found Hpre Hch; simpl.
  - rewrite Hch. reflexivity.
  - rewrite (Hpre c (or_introl eq_refl)).
    change (total_predict ext c) with (Some (map Some (ext c))).
    destruct (entity_loop_total v found (ext c)) as [H1 _].
    destruct (entity_loop v found (map Some (ext c))) as [f' raised].
    simpl in H1. subst raised.
    apply IH; [intros c' Hc'; apply Hpre; right; exact Hc' | exact Hch].
Qed.

Lemma validate_sorted (v : list string) (p : Predict) (text : string) :
  StronglySorted slt (validate v p text).
Proof.
  apply py_sorted_sorted, chunks_loop_NoDup. constructor.
Qed.

Lemma validate_total_In (v : list string) (ext : string -> list string)
  (text s : string) :
  In s (validate v (total_predict ext) text) <-> vset v (flat_map ext (chunks_of text)) s.
Proof.
  unfold validate. rewrite py_sorted_In, chunks_loop_total. simpl. tauto.
Qed.

Lemma append_nonempty_r (a b : string) :
  b <> EmptyString -> String.append a b <> EmptyString.
Proof. destruct a; simpl; [auto|discriminate]. Qed.

Lemma append_newline_nonempty (a b : string) :
  String.append a (String.append b (String newline EmptyString)) <> EmptyString.
Proof. do 2 apply append_nonempty_r. discriminate. Qed.

Lemma chunk_loop_nonempty (lines : list string) (cur : string) :
  (cur <> EmptyString \/ lines <> []) -> chunk_loop lines cur <> [].
Proof.
  revert cur; induction lines as [|line lines IH]; intros cur H; simpl.
  - destruct H as [H|H]; [|congruence].
    destruct (String.eqb_spec cur "") as [E|E]; [contradiction|discriminate].
  - destruct (Nat.leb _ _).
    + apply IH. left. apply append_newline_nonempty.
    + intro E. apply app_eq_nil in E as [_ E]. revert E. apply IH.
      left. apply (append_newline_nonempty EmptyString).
Qed.

Lemma split_lines_aux_nonempty (s cur : string) : split_lines_aux s cur <> [].
Proof.
  revert cur; induction s as [|c s IH]; intros cur; simpl; [discriminate|].
  destruct (Ascii.eqb c newline); [discriminate|apply IH].
Qed.

Lemma chunks_of_nonempty (text : string) : chunks_of text <> [].
Proof.
  unfold chunks_of. destruct (Nat.ltb _ _); [|discriminate].
  apply chunk_loop_nonempty. right. apply split_lines_aux_nonempty.
Qed.

End ValidatorLoops.

Import ValidatorFacts ValidatorLoops.

(* ------------------------------------------------------------------ *)
(** ** Claims about [validate] *)

(** C4 (as stated, refuted): emitting [s] is not characterised by the
    normalisation "drop a leading [$], uppercase" alone: the entity text
    [" AAPL"] yields [AAPL], since [validate] also strips whitespace first. *)
Lemma C4_counterexample :
  ~ (forall (v : list string) (ext : string -> list string) (text s : string),
        In s (validate v (total_predict ext) text) <->
        exists c, In c (flat_map ext (chunks_of text)) /\
                  upper (drop_dollar c) = s /\ In s v /\ ~ In s EXCLUSION_LIST).
Proof.
  intros H.
  destruct (proj1 (H ["AAPL"] (fun _ => [" AAPL"]) "x" "AAPL") ltac:(vm_compute; left; reflexivity))
    as [c [Hc [Hn _]]].
  simpl in Hc. destruct Hc as [<-|[]]. vm_compute in Hn. discriminate.
Qed.

(** C4 (amended): for an entity model that does not raise, [validate]
    emits [s] iff some candidate, after [.strip()], dropping a leading ['$']
    and [.upper()], equals [s], and [s] is registered and not in the
    exclusion list; so an excluded symbol is never emitted. *)
Theorem validate_emits_iff :
  forall (v : list string) (ext : string -> list string) (text s : string),
    In s (validate v (total_predict ext) text) <->
    exists c, In c (flat_map ext (chunks_of text)) /\
              upper (drop_dollar (strip c)) = s /\ In s v /\ ~ In s EXCLUSION_LIST.
Proof.
  intros v ext text s. rewrite validate_total_In. unfold vset, normalize.
  split.
  - intros [c [Hc [Hn Hk]]]. apply keep_spec in Hk. exists c. tauto.
  - intros [c [Hc [Hn [Hv Hx]]]]. exists c. repeat split; auto.
    apply keep_spec. auto.
Qed.

(** C5: the result of [validate] is strictly ascending (so duplicate-free)
    for every entity model, it depends on the candidates only through the
    set of normalised validated symbols, and the candidates
    [AAPL], [aapl], [$AAPL] with [AAPL] registered yield exactly [[AAPL]]. *)
Theorem validate_sorted_setwise :
  (forall (v : list string) (p : Predict) (text : string),
      StronglySorted String_as_OT.lt (validate v p text)) /\
  (forall (v : list string) (ext1 ext2 : string -> list string) (text1 text2 : string),
      (forall s, vset v (flat_map ext1 (chunks_of text1)) s <->
                 vset v (flat_map ext2 (chunks_of text2)) s) ->
      validate v (total_predict ext1) text1 = validate v (total_predict ext2) text2) /\
  (forall (v : list string) (text : string),
      In "AAPL" v ->
      validate v (total_predict (fun _ => ["AAPL"; "aapl"; "$AAPL"])) text = ["AAPL"]).
Proof.
  split; [|split].
  - apply validate_sorted.
  - intros v ext1 ext2 text1 text2 Hset. apply sorted_unique; try apply validate_sorted.
    intros x. rewrite !validate_total_In. apply Hset.
  - intros v text Hv. apply sorted_unique; [apply validate_sorted | repeat constructor |].
    intros x. rewrite validate_total_In. unfold vset. split.
    + intros [c [Hc [Hn Hk]]]. apply in_flat_map in Hc as [ch [_ Hc]].
      simpl in Hc. left.
      destruct Hc as [<-|[<-|[<-|[]]]]; vm_compute in Hn; exact Hn.
    + intros [<-|[]].
      destruct (chunks_of text) as [|ch chs] eqn:E; [exfalso; exact (chunks_of_nonempty text E)|].
      exists "AAPL". split; [simpl; left; reflexivity|]. split; [reflexivity|].
      apply keep_spec. split; [exact Hv|]. vm_compute. intuition discriminate.
Qed.

Lemma validate_sorted_setwise_witness :
  validate ["AAPL"] (total_predict (fun _ => ["AAPL"; "aapl"; "$AAPL"])) "buy" = ["AAPL"] /\
  validate ["AAPL"] (total_predict (fun _ => ["aapl"])) "a" =
  validate ["AAPL"] (total_predict (fun _ => ["$AAPL"; "AAPL"])) "b".
Proof.
  split.
  - apply (proj2 (proj2 validate_sorted_setwise)). left. reflexivity.
  - apply (proj1 (proj2 validate_sorted_setwise)). intros s. unfold vset. simpl. split.
    + intros [c [[<-|[]] [Hn Hk]]]. exists "AAPL". vm_compute in Hn. subst s.
      split; [right; left; reflexivity|]. split; [reflexivity|exact Hk].
    + intros [c [Hc [Hn Hk]]]. exists "aapl".
      destruct Hc as [<-|[<-|[]]]; vm_compute in Hn; subst s; split; auto.
Defined.

(** C10: [validate] returns normally whatever the entity model does.  When
    the model raises on some chunk after the chunks before it succeeded, the
    result is the ascending, duplicate-free list of the symbols validated from
    those earlier chunks, and [[]] when the very first chunk raises. *)
Theorem validate_contains_extractor_failure :
  forall (v : list string) (p : Predict) (ext : string -> list string)
         (text ch : string) (pre post : list string),
    chunks_of text = pre ++ ch :: post ->
    (forall c, In c pre -> p c = total_predict ext c) ->
    p ch = None ->
    StronglySorted String_as_OT.lt (validate v p text) /\
    (forall s, In s (validate v p text) <-> vset v (flat_map ext pre) s) /\
    (pre = [] -> validate v p text = []).
Proof.
  intros v p ext text ch pre post Hch Hpre Hfail.
  assert (E : validate v p text = py_sorted (chunks_loop v (total_predict ext) [] pre)).
  { unfold validate. rewrite Hch. f_equal. apply chunks_loop_failure; assumption. }
  split; [apply validate_sorted|]. split.
  - intros s. rewrite E, py_sorted_In, chunks_loop_total. simpl. tauto.
  - intros ->. rewrite E. reflexivity.
Qed.

Lemma validate_contains_extractor_failure_witness :
  chunks_of two_chunk_text = [aapl_line; gme_line] /\
  validate ["AAPL"; "GME"] aapl_only_model two_chunk_text = ["AAPL"] /\
  (forall s, In s (validate ["AAPL"; "GME"] aapl_only_model two_chunk_text) <->
             vset ["AAPL"; "GME"] (flat_map (fun _ : string => ["AAPL"]) [aapl_line]) s).
Proof.
  destruct (validate_contains_extractor_failure ["AAPL"; "GME"] aapl_only_model
              (fun _ => ["AAPL"]) two_chunk_text gme_line [aapl_line] [])
    as [_ [Hin _]].
  - vm_compute. reflexivity.
  - intros c [<-|[]]. vm_compute. reflexivity.
  - vm_compute. reflexivity.
  - split; [vm_compute; reflexivity|]. split; [vm_compute; reflexivity|exact Hin].
Defined.

(* ------------------------------------------------------------------ *)
(** ** Parser facts *)

Module ParserFacts.

(** Peel a chain of [py_bind]s in a hypothesis equal to [Ok _]. *)
Ltac peel H :=
  repeat match type of H with
  | py_bind ?m _ = _ =>
      let E := fresh "E" in destruct m eqn:E; cbn [py_bind] in H; [|discriminate H]
  | (let '(_, _) := ?p in _) = _ => destruct p
  | match ?p with (_, _) => _ end = _ => destruct p
  end.

Lemma append_empty_r (s : string) : String.append s "" = s.
Proof. induction s as [|c s IH]; simpl; [reflexivity|rewrite IH; reflexivity]. Qed.

Lemma py_get_obj (kv : list (string * Json)) (k : string) (d : Json) :
  py_get (JObj kv) k d = Ok (match assoc_lookup k kv with Some x => x | None => d end).
Proof. simpl. destruct (assoc_lookup k kv); reflexivity. Qed.

Lemma comment_ids_loop_spec (i : nat) (acc items ids : list Json) :
  comment_ids_loop i acc items = Ok ids ->
  ids = acc ++ flat_map child_id (firstn (NUM_COMMENTS_PER_POST - i) items).
Proof.
  revert i acc; induction items as [|item items IH]; intros i acc H; cbn [comment_ids_loop] in H.
  - injection H as <-. rewrite firstn_nil. simpl. rewrite app_nil_r. reflexivity.
  - destruct (Nat.leb NUM_COMMENTS_PER_POST i) eqn:Hi.
    + injection H as <-. apply Nat.leb_le in Hi.
      replace (NUM_COMMENTS_PER_POST - i) with 0 by lia. simpl. rewrite app_nil_r. reflexivity.
    + apply Nat.leb_gt in Hi.
      replace (NUM_COMMENTS_PER_POST - i) with (S (NUM_COMMENTS_PER_POST - S i)) by lia.
      cbn [firstn flat_map]. unfold child_id at 1.
      destruct (py_get item "data" (JObj [])) as [d|e]; cbn [py_bind] in H |- *; [|discriminate H].
      destruct (py_get d "id" JNull) as [cid|e]; cbn [py_bind] in H |- *; [|discriminate H].
      apply IH in H. rewrite H. destruct (truthy cid); simpl; rewrite <- ?app_assoc; reflexivity.
Qed.

Lemma child_id_length (item : Json) : List.length (child_id item) <= 1.
Proof.
  unfold child_id. destruct (_ <- _ ;; _) as [cid|]; [destruct (truthy cid)|]; simpl; lia.
Qed.

Lemma flat_map_child_id_length (items : list Json) :
  List.length (flat_map child_id items) <= List.length items.
Proof.
  induction items as [|item items IH]; simpl; [lia|].
  rewrite length_app. pose proof (child_id_length item). lia.
Qed.

End ParserFacts.

Import ParserFacts.

Module ParserEdges.

Lemma extract_ok (kv : list (string * Json)) (ty : SubmissionType) :
  str_or_absent kv "selftext" -> str_or_absent kv "body" -> str_or_absent kv "title" ->
  exists sd, extract_submission_data (JObj kv) ty = Ok (submission_text kv, sd) /\ stype sd = ty.
Proof.
  intros Hs Hb Ht. unfold str_or_absent, submission_text, str_field in *.
  unfold extract_submission_data. rewrite !py_get_obj. cbn [py_bind].
  destruct (assoc_lookup "selftext" kv) as [[]|]; try contradiction;
  destruct (assoc_lookup "body" kv) as [[]|]; try contradiction;
  destruct (assoc_lookup "title" kv) as [[]|]; try contradiction;
  cbn [py_bind py_strip truthy];
  repeat match goal with
  | |- context [String.eqb ?a ""] => destruct (String.eqb_spec a ""); try subst a
  end;
  cbn; eexists; split; reflexivity.
Qed.

Lemma child_ok_data (c : Json) :
  child_ok c = true -> exists dkv, py_get c "data" (JObj []) = Ok (JObj dkv).
Proof.
  unfold child_ok. destruct (py_get c "data" (JObj [])) as [d|]; [|discriminate].
  destruct d; try discriminate. intros _. eexists; reflexivity.
Qed.

Lemma post_ids_loop_ok (acc children : list Json) :
  Forall (fun c => child_ok c = true) children ->
  post_ids_loop acc children = (acc ++ flat_map child_id children, None).
Proof.
  intros H; revert acc; induction H as [|c children Hc _ IH]; intros acc.
  - simpl. rewrite app_nil_r. reflexivity.
  - destruct (child_ok_data c Hc) as [dkv Hd]. cbn [post_ids_loop flat_map].
    unfold child_id at 1. rewrite Hd. cbn [py_bind]. rewrite py_get_obj, IH.
    destruct (truthy _); simpl; rewrite <- ?app_assoc; reflexivity.
Qed.

Lemma comment_ids_loop_ok (i : nat) (acc items : list Json) :
  Forall (fun c => child_ok c = true) items -> exists ids, comment_ids_loop i acc items = Ok ids.
Proof.
  intros H; revert i acc; induction H as [|c items Hc _ IH]; intros i acc.
  - eexists; reflexivity.
  - cbn [comment_ids_loop]. destruct (Nat.leb NUM_COMMENTS_PER_POST i); [eexists; reflexivity|].
    destruct (child_ok_data c Hc) as [dkv Hd]. rewrite Hd. cbn [py_bind]. rewrite py_get_obj.
    apply IH.
Qed.

Lemma idx_exc_caught (raw : Json) (i : nat) (e : PyExc) :
  py_getitem_idx raw i = Exc e -> existsb (fun e' =>
    match e, e' with
    | KeyError, KeyError | TypeError, TypeError
    | IndexError, IndexError | AttributeError, AttributeError => true
    | _, _ => false
    end) parse_caught = true.
Proof.
  destruct raw; cbn [py_getitem_idx]; intros H; try (injection H as <-; reflexivity).
  - destruct (String.get i s); [discriminate|injection H as <-; reflexivity].
  - destruct (nth_error l i); [discriminate|injection H as <-; reflexivity].
Qed.

Lemma title_add (kv : list (string * Json)) (x : string) :
  title_ok kv ->
  py_str_add x (if truthy (match assoc_lookup "title" kv with Some v => v | None => JStr "" end)
                then (match assoc_lookup "title" kv with Some v => v | None => JStr "" end)
                else JStr "") = Ok (String.append x (str_field kv "title")).
Proof.
  unfold title_ok, str_field.
  destruct (assoc_lookup "title" kv) as [v|]; [destruct v as [|b|z|s|l|o]|]; intros Ht.
  - cbn. rewrite append_empty_r. reflexivity.
  - cbn [truthy] in *. rewrite Ht. cbn. rewrite append_empty_r. reflexivity.
  - cbn [truthy] in *. rewrite Ht. cbn. rewrite append_empty_r. reflexivity.
  - cbn [truthy]. destruct (String.eqb_spec s ""); [subst; cbn; rewrite append_empty_r|cbn]; reflexivity.
  - cbn [truthy] in *. rewrite Ht. cbn. rewrite append_empty_r. reflexivity.
  - cbn [truthy] in *. rewrite Ht. cbn. rewrite append_empty_r. reflexivity.
  - cbn. rewrite append_empty_r. reflexivity.
Qed.

Lemma str_field_some (kv : list (string * Json)) (k s : string) :
  assoc_lookup k kv = Some (JStr s) -> str_field kv k = s.
Proof. unfold str_field. intros ->. reflexivity. Qed.

Lemma str_field_none (kv : list (string * Json)) (k : string) :
  assoc_lookup k kv = None -> str_field kv k = "".
Proof. unfold str_field. intros ->. reflexivity. Qed.

Lemma extract_ok_general (kv : list (string * Json)) (ty : SubmissionType) :
  str_or_absent kv "selftext" ->
  (strip (str_field kv "selftext") = "" -> str_or_absent kv "body") ->
  title_ok kv ->
  exists sd, extract_submission_data (JObj kv) ty = Ok (submission_text kv, sd) /\ stype sd = ty.
Proof.
  intros Hs Hb Ht. unfold extract_submission_data. rewrite !py_get_obj. cbn [py_bind].
  unfold submission_text, str_or_absent in *.
  assert (Hsel : exists s, str_field kv "selftext" = s /\
            match assoc_lookup "selftext" kv with Some x => x | None => JStr "" end = JStr s).
  { destruct (assoc_lookup "selftext" kv) as [[]|] eqn:E; try contradiction.
    - exists s. split; [apply str_field_some; exact E|reflexivity].
    - exists "". split; [apply str_field_none; exact E|reflexivity]. }
  destruct Hsel as [s [Hs1 Hs2]]. rewrite Hs2, Hs1. rewrite Hs1 in Hb. cbn [py_strip py_bind].
  destruct (String.eqb_spec (strip s) "") as [Es|Es].
  - specialize (Hb Es).
    assert (Hbody : exists b, str_field kv "body" = b /\
              match assoc_lookup "body" kv with Some x => x | None => JStr "" end = JStr b).
    { destruct (assoc_lookup "body" kv) as [[]|] eqn:E; try contradiction.
      - exists s0. split; [apply str_field_some; exact E|reflexivity].
      - exists "". split; [apply str_field_none; exact E|reflexivity]. }
    destruct Hbody as [b [Hb1 Hb2]]. rewrite Hb2, Hb1. cbn [py_strip py_bind].
    pose proof (title_add kv (strip b) Ht) as HT.
    set (tv := match assoc_lookup "title" kv with Some v => v | None => JStr "" end) in *.
    rewrite HT. cbn [py_bind]. eexists. split; reflexivity.
  - pose proof (title_add kv (strip s) Ht) as HT.
    set (tv := match assoc_lookup "title" kv with Some v => v | None => JStr "" end) in *.
    cbn [py_bind]. rewrite HT. cbn [py_bind]. eexists. split; reflexivity.
Qed.

Lemma extract_text_of (js : Json) (ty : SubmissionType) (t : string) (sd : SubmissionData) :
  extract_submission_data js ty = Ok (t, sd) ->
  exists kv, js = JObj kv /\ t = submission_text kv /\ stype sd = ty.
Proof.
  intros H. destruct js as [| | | | |kv]; try discriminate H.
  exists kv. split; [reflexivity|].
  unfold extract_submission_data in H. rewrite !py_get_obj in H. cbn [py_bind] in H.
  unfold submission_text, str_field.
  destruct (assoc_lookup "selftext" kv) as [[]|]; cbn [py_strip py_bind] in H; try discriminate H;
  [destruct (String.eqb (strip s) "") eqn:Es|];
  try (destruct (assoc_lookup "body" kv) as [[]|]; cbn [py_strip py_bind] in H; try discriminate H);
  destruct (assoc_lookup "title" kv) as [[]|]; cbn [truthy py_str_add py_bind] in H;
  repeat match type of H with
  | context [if negb (String.eqb ?x "") then _ else _] =>
      destruct (String.eqb_spec x ""); [subst x|]; cbn [negb] in H
  | context [if ?b then _ else _] => destruct b
  end; cbn [py_str_add py_bind] in H; try discriminate H;
  injection H as <- <-; cbn; rewrite ?Es, ?append_empty_r; split; reflexivity.
Qed.

Lemma getitem_key_obj (kv : list (string * Json)) (k : string) (v : Json) :
  assoc_lookup k kv = Some v -> py_getitem_key (JObj kv) k = Ok v.
Proof. intros H. cbn. rewrite H. reflexivity. Qed.

(** [parse_json_for_comment_content] on a listing [raw_json[1]] of any
    dict shape: the first child's [data] dict is parsed, and the reply
    objects are read off its [replies]. *)
Lemma comment_parse_general (r0 : Json) (kv1 dkv1 ckv fields : list (string * Json))
  (more rest : list Json) :
  assoc_lookup "data" kv1 = Some (JObj dkv1) ->
  assoc_lookup "children" dkv1 = Some (JList (JObj ckv :: more)) ->
  assoc_lookup "data" ckv = Some (JObj fields) ->
  str_or_absent fields "selftext" -> str_or_absent fields "body" -> str_or_absent fields "title" ->
  exists sd, stype sd = COMMENT /\
    ((assoc_lookup "replies" fields = None \/ exists s, assoc_lookup "replies" fields = Some (JStr s)) ->
       parse_json_for_comment_content (JList (r0 :: JObj kv1 :: rest)) =
       Ok (Some sd, submission_text fields, [])) /\
    (forall rkv rdkv replies,
       assoc_lookup "replies" fields = Some (JObj rkv) ->
       assoc_lookup "data" rkv = Some (JObj rdkv) ->
       assoc_lookup "children" rdkv = Some (JList replies) ->
       parse_json_for_comment_content (JList (r0 :: JObj kv1 :: rest)) =
       Ok (Some sd, submission_text fields, replies)) /\
    (forall rkv,
       assoc_lookup "replies" fields = Some (JObj rkv) ->
       assoc_lookup "data" rkv = None ->
       parse_json_for_comment_content (JList (r0 :: JObj kv1 :: rest)) =
       Ok (Some sd, submission_text fields, [])) /\
    (forall rkv rdkv,
       assoc_lookup "replies" fields = Some (JObj rkv) ->
       assoc_lookup "data" rkv = Some (JObj rdkv) ->
       assoc_lookup "children" rdkv = None ->
       parse_json_for_comment_content (JList (r0 :: JObj kv1 :: rest)) =
       Ok (Some sd, submission_text fields, [])).
Proof.
  intros H1 H2 H3 Hs Hb Ht. destruct (extract_ok fields COMMENT Hs Hb Ht) as [sd [Hx Hty]].
  exists sd. split; [exact Hty|].
  unfold parse_json_for_comment_content. cbn [py_getitem_idx nth_error py_bind].
  rewrite (getitem_key_obj _ _ _ H1). cbn [py_bind]. rewrite (getitem_key_obj _ _ _ H2).
  cbn [py_bind py_getitem_idx nth_error]. rewrite (getitem_key_obj _ _ _ H3). cbn [py_bind].
  rewrite py_get_obj. split; [|split; [|split]].
  - intros [Hr|[s Hr]]; rewrite Hr; cbn [is_dict py_bind]; rewrite Hx; reflexivity.
  - intros rkv rdkv replies Hr Hd Hc. rewrite Hr. cbn [is_dict py_bind].
    rewrite py_get_obj, Hd. cbn [py_bind]. rewrite py_get_obj, Hc. cbn [py_bind py_iter].
    rewrite Hx. reflexivity.
  - intros rkv Hr Hd. rewrite Hr. cbn [is_dict py_bind].
    rewrite py_get_obj, Hd. cbn [py_bind]. rewrite py_get_obj. cbn [assoc_lookup py_bind py_iter].
    rewrite Hx. reflexivity.
  - intros rkv rdkv Hr Hd Hc. rewrite Hr. cbn [is_dict py_bind].
    rewrite py_get_obj, Hd. cbn [py_bind]. rewrite py_get_obj, Hc. cbn [py_bind py_iter].
    rewrite Hx. reflexivity.
Qed.

Lemma getitem_key_missing (kv : list (string * Json)) (k : string) :
  assoc_lookup k kv = None -> py_getitem_key (JObj kv) k = Exc KeyError.
Proof. intros H. cbn. rewrite H. reflexivity. Qed.

(** At each tier, a parsed submission's text is [submission_text] of the
    dict the parser hands to [extract_submission_data]. *)
Lemma post_parse_text (raw : Json) (sd : SubmissionData) (t : string) (ids : list Json) :
  parse_json_for_post_content raw = Ok (Some sd, t, ids) ->
  exists r0 d0 ch0 c0 kv,
    py_getitem_idx raw 0 = Ok r0 /\ py_getitem_key r0 "data" = Ok d0 /\
    py_getitem_key d0 "children" = Ok ch0 /\ py_getitem_idx ch0 0 = Ok c0 /\
    py_getitem_key c0 "data" = Ok (JObj kv) /\ t = submission_text kv /\ stype sd = POST.
Proof.
  intros H. unfold parse_json_for_post_content, py_catch in H.
  match type of H with
  | match ?body with Ok _ => _ | Exc _ => _ end = _ => destruct body eqn:Hb
  end.
  2:{ destruct (existsb _ _); discriminate. }
  injection H as ->. peel Hb. injection Hb as <- <- _.
  match goal with
  | Hx : extract_submission_data _ POST = Ok _ |- _ =>
      destruct (extract_text_of _ _ _ _ Hx) as [kv [Hkv [Ht Hty]]]
  end.
  subst. do 5 eexists. repeat split; eassumption.
Qed.

Lemma comment_parse_text (raw : Json) (sd : SubmissionData) (t : string) (reps : list Json) :
  parse_json_for_comment_content raw = Ok (Some sd, t, reps) ->
  exists r1 d1 ch1 c0 kv,
    py_getitem_idx raw 1 = Ok r1 /\ py_getitem_key r1 "data" = Ok d1 /\
    py_getitem_key d1 "children" = Ok ch1 /\ py_getitem_idx ch1 0 = Ok c0 /\
    py_getitem_key c0 "data" = Ok (JObj kv) /\ t = submission_text kv /\ stype sd = COMMENT.
Proof.
  intros H. unfold parse_json_for_comment_content, py_catch in H.
  match type of H with
  | match ?body with Ok _ => _ | Exc _ => _ end = _ => destruct body eqn:Hb
  end.
  2:{ destruct (existsb _ _); discriminate. }
  injection H as ->. peel Hb. injection Hb as <- <- _.
  match goal with
  | Hx : extract_submission_data _ COMMENT = Ok _ |- _ =>
      destruct (extract_text_of _ _ _ _ Hx) as [kv [Hkv [Ht Hty]]]
  end.
  subst. do 5 eexists. repeat split; eassumption.
Qed.

Lemma reply_parse_text (raw : Json) (sd : SubmissionData) (t : string) :
  parse_json_for_reply_content raw = Ok (Some sd, t) ->
  exists kv, py_get raw "data" raw = Ok (JObj kv) /\ t = submission_text kv /\ stype sd = REPLY.
Proof.
  intros H. unfold parse_json_for_reply_content, py_catch in H.
  match type of H with
  | match ?body with Ok _ => _ | Exc _ => _ end = _ => destruct body eqn:Hb
  end.
  2:{ destruct (existsb _ _); discriminate. }
  injection H as ->. peel Hb. injection Hb as <- <-.
  match goal with
  | Hx : extract_submission_data _ REPLY = Ok _ |- _ =>
      destruct (extract_text_of _ _ _ _ Hx) as [kv [Hkv [Ht Hty]]]
  end.
  subst. exists kv. repeat split; assumption.
Qed.

End ParserEdges.

Import ParserEdges.

(* ------------------------------------------------------------------ *)
(** ** Claims about the tier parsers *)

(** C6: the parsers do not read the run's tier widths.
    [parse_json_for_post_content] returns the truthy ids of the first
    [NUM_COMMENTS_PER_POST] (= 5, fixed in [utils.py]) children of
    [raw[1].data.children], in source order, and
    [parse_json_for_comment_content] returns every reply child embedded in
    the first comment's [replies] listing, with no cap.  So a post view with
    three comment children gives three ids even when the run asked for
    [num_comments_per_post = 2], seven children give five ids when it asked
    for ten, and three embedded replies are all returned whatever
    [num_replies_per_comment] is. *)
Theorem parsers_tier_widths :
  (forall raw sd txt ids,
      parse_json_for_post_content raw = Ok (Some sd, txt, ids) ->
      List.length ids <= NUM_COMMENTS_PER_POST /\
      exists r1 d1 cd items,
        py_getitem_idx raw 1 = Ok r1 /\ py_getitem_key r1 "data" = Ok d1 /\
        py_getitem_key d1 "children" = Ok cd /\ py_iter cd = Ok items /\
        ids = flat_map child_id (firstn NUM_COMMENTS_PER_POST items)) /\
  (forall (r0 : Json) (kv1 dkv1 ckv fields rkv rdkv : list (string * Json))
          (more rest replies : list Json),
      assoc_lookup "data" kv1 = Some (JObj dkv1) ->
      assoc_lookup "children" dkv1 = Some (JList (JObj ckv :: more)) ->
      assoc_lookup "data" ckv = Some (JObj fields) ->
      str_or_absent fields "selftext" -> str_or_absent fields "body" ->
      str_or_absent fields "title" ->
      assoc_lookup "replies" fields = Some (JObj rkv) ->
      assoc_lookup "data" rkv = Some (JObj rdkv) ->
      assoc_lookup "children" rdkv = Some (JList replies) ->
      exists sd, parse_json_for_comment_content (JList (r0 :: JObj kv1 :: rest))
                 = Ok (Some sd, submission_text fields, replies)) /\
  (exists sd txt,
      parse_json_for_post_content
        (post_response [("id", JStr "p1")] (map comment_child ["c1"; "c2"; "c3"]))
      = Ok (Some sd, txt, [JStr "c1"; JStr "c2"; JStr "c3"])) /\
  (exists sd txt,
      parse_json_for_post_content
        (post_response [("id", JStr "p1")]
           (map comment_child ["c1"; "c2"; "c3"; "c4"; "c5"; "c6"; "c7"]))
      = Ok (Some sd, txt, [JStr "c1"; JStr "c2"; JStr "c3"; JStr "c4"; JStr "c5"])) /\
  (exists sd,
      parse_json_for_comment_content
        (comment_response [("body", JStr "GME")] (map comment_child ["r1"; "r2"; "r3"]))
      = Ok (Some sd, "GME", map comment_child ["r1"; "r2"; "r3"])).
Proof.
  split; [|split; [|split; [|split]]].
  - intros raw sd txt ids H. unfold parse_json_for_post_content, py_catch in H.
    match type of H with
    | match ?body with Ok _ => _ | Exc _ => _ end = _ => destruct body eqn:Hb
    end.
    2:{ destruct (existsb _ _); discriminate. }
    injection H as ->. peel Hb.
    injection Hb as <- <- <-.
    pose proof (comment_ids_loop_spec 0 [] _ _ E3) as Hids.
    rewrite Nat.sub_0_r in Hids. cbn [app] in Hids.
    split.
    + rewrite Hids. etransitivity; [apply flat_map_child_id_length|].
      apply firstn_le_length.
    + exists j, j0, j1, l. repeat split; assumption.
  - intros r0 kv1 dkv1 ckv fields rkv rdkv more rest replies H1 H2 H3 Hs Hb Ht Hr Hd Hc.
    destruct (comment_parse_general r0 kv1 dkv1 ckv fields more rest H1 H2 H3 Hs Hb Ht)
      as [sd [_ [_ [Hdict _]]]].
    exists sd. exact (Hdict rkv rdkv replies Hr Hd Hc).
  - do 2 eexists. reflexivity.
  - do 2 eexists. reflexivity.
  - eexists. reflexivity.
Qed.

Lemma parsers_tier_widths_witness :
  (List.length [JStr "c1"; JStr "c2"; JStr "c4"; JStr "c5"] <= NUM_COMMENTS_PER_POST) /\
  (exists sd, parse_json_for_comment_content
     (JList [JObj [("kind", JStr "Listing")];
             JObj [("kind", JStr "Listing");
                   ("data", JObj [("after", JNull);
                     ("children", JList [JObj [("kind", JStr "t1");
                       ("data", JObj [("id", JStr "c1"); ("body", JStr " GME ");
                         ("replies", JObj [("kind", JStr "Listing");
                            ("data", JObj [("children", JList (map comment_child ["r1"; "r2"]))])])])]])])]])
     = Ok (Some sd, "GME", map comment_child ["r1"; "r2"])).
Proof.
  split.
  - apply (proj1 (proj1 parsers_tier_widths
      (post_response [("id", JStr "p1")]
         (map comment_child ["c1"; "c2"] ++ [JObj []] ++ map comment_child ["c4"; "c5"; "c6"]))
      (mkSubmissionData (JStr "p1") (JNum 0) (JNum 0) (JStr "Unknown") (JStr "Unknown") POST)
      "" [JStr "c1"; JStr "c2"; JStr "c4"; JStr "c5"] eq_refl)).
  - destruct (proj1 (proj2 parsers_tier_widths)
      (JObj [("kind", JStr "Listing")])
      [("kind", JStr "Listing");
       ("data", JObj [("after", JNull);
         ("children", JList [JObj [("kind", JStr "t1");
           ("data", JObj [("id", JStr "c1"); ("body", JStr " GME ");
             ("replies", JObj [("kind", JStr "Listing");
                ("data", JObj [("children", JList (map comment_child ["r1"; "r2"]))])])])]])])]
      [("after", JNull);
       ("children", JList [JObj [("kind", JStr "t1");
         ("data", JObj [("id", JStr "c1"); ("body", JStr " GME ");
           ("replies", JObj [("kind", JStr "Listing");
              ("data", JObj [("children", JList (map comment_child ["r1"; "r2"]))])])])]])]
      [("kind", JStr "t1");
       ("data", JObj [("id", JStr "c1"); ("body", JStr " GME ");
         ("replies", JObj [("kind", JStr "Listing");
            ("data", JObj [("children", JList (map comment_child ["r1"; "r2"]))])])])]
      [("id", JStr "c1"); ("body", JStr " GME ");
       ("replies", JObj [("kind", JStr "Listing");
          ("data", JObj [("children", JList (map comment_child ["r1"; "r2"]))])])]
      [("kind", JStr "Listing");
       ("data", JObj [("children", JList (map comment_child ["r1"; "r2"]))])]
      [("children", JList (map comment_child ["r1"; "r2"]))]
      [] [] (map comment_child ["r1"; "r2"]))
      as [sd Hsd]; try reflexivity; try exact I.
    exists sd. rewrite Hsd. reflexivity.
Defined.

(** C7 (as stated, refuted): with a non-empty [selftext] the extraction
    text is not the stripped [selftext] alone; the title is appended. *)
Lemma C7_counterexample :
  match extract_submission_data
          (JObj [("selftext", JStr " Buy GME "); ("title", JStr "Thoughts")]) POST with
  | Ok (text, _) => text <> strip " Buy GME " /\ text = "Buy GMEThoughts"
  | Exc _ => False
  end.
Proof. vm_compute. split; [discriminate | reflexivity]. Qed.

(** C7 (amended): at every tier, the text of a parsed submission is
    [submission_text] of its dict: the stripped [selftext] if non-empty, else
    the stripped [body], immediately followed by the title, which is [""]
    when absent or falsy (e.g. [null]).  Every dict whose [selftext] is a
    string or absent, whose [body] is a string or absent when the stripped
    [selftext] is blank, and whose title is absent, a string or falsy, is
    parsed so.  When the text is empty the submission still parses and its
    task inserts nothing, at every tier. *)
Theorem extraction_text_rule :
  (forall raw sd t ids, parse_json_for_post_content raw = Ok (Some sd, t, ids) ->
      exists r0 d0 ch0 c0 kv,
        py_getitem_idx raw 0 = Ok r0 /\ py_getitem_key r0 "data" = Ok d0 /\
        py_getitem_key d0 "children" = Ok ch0 /\ py_getitem_idx ch0 0 = Ok c0 /\
        py_getitem_key c0 "data" = Ok (JObj kv) /\ t = submission_text kv /\ stype sd = POST) /\
  (forall raw sd t reps, parse_json_for_comment_content raw = Ok (Some sd, t, reps) ->
      exists r1 d1 ch1 c0 kv,
        py_getitem_idx raw 1 = Ok r1 /\ py_getitem_key r1 "data" = Ok d1 /\
        py_getitem_key d1 "children" = Ok ch1 /\ py_getitem_idx ch1 0 = Ok c0 /\
        py_getitem_key c0 "data" = Ok (JObj kv) /\ t = submission_text kv /\ stype sd = COMMENT) /\
  (forall raw sd t, parse_json_for_reply_content raw = Ok (Some sd, t) ->
      exists kv, py_get raw "data" raw = Ok (JObj kv) /\ t = submission_text kv /\ stype sd = REPLY) /\
  (forall (kv : list (string * Json)) (ty : SubmissionType),
      str_or_absent kv "selftext" ->
      (strip (str_field kv "selftext") = "" -> str_or_absent kv "body") ->
      title_ok kv ->
      exists sd, extract_submission_data (JObj kv) ty = Ok (submission_text kv, sd) /\ stype sd = ty) /\
  (forall api vld pid raw sd ids db,
      api (ReqPost pid) = Some raw -> truthy raw = true ->
      parse_json_for_post_content raw = Ok (Some sd, "", ids) ->
      fetch_post_data_and_comment_ids api vld pid db = (Ok ids, db)) /\
  (forall api vld pid cid raw sd reps db,
      api (ReqComment pid cid) = Some raw -> truthy raw = true ->
      parse_json_for_comment_content raw = Ok (Some sd, "", reps) ->
      fetch_comment_data api vld cid pid db = (Ok reps, db)) /\
  (forall vld reply sd db,
      parse_json_for_reply_content reply = Ok (Some sd, "") ->
      fetch_reply_data vld reply db = (Ok tt, db)).
Proof.
  split; [|split; [|split; [|split; [|split; [|split]]]]].
  - exact post_parse_text.
  - exact comment_parse_text.
  - exact reply_parse_text.
  - exact extract_ok_general.
  - intros api vld pid raw sd ids db Hapi Ht Hp.
    unfold fetch_post_data_and_comment_ids. rewrite Hapi, Ht. cbn [negb].
    unfold bindM, lift. rewrite Hp. reflexivity.
  - intros api vld pid cid raw sd reps db Hapi Ht Hp.
    unfold fetch_comment_data. rewrite Hapi, Ht. cbn [negb].
    unfold bindM, lift. rewrite Hp. reflexivity.
  - intros vld reply sd db Hp. unfold fetch_reply_data, bindM, lift. rewrite Hp. reflexivity.
Qed.

Lemma extraction_text_rule_witness :
  (exists sd, extract_submission_data
                (JObj [("selftext", JStr "Buy GME"); ("body", JNull); ("title", JStr "T")]) POST
              = Ok ("Buy GMET", sd) /\ stype sd = POST) /\
  (exists sd, extract_submission_data
                (JObj [("selftext", JStr " "); ("body", JStr " hi "); ("title", JNull)]) COMMENT
              = Ok ("hi", sd) /\ stype sd = COMMENT) /\
  (exists kv, py_get (JObj [("kind", JStr "t1"); ("data", JObj [("id", JStr "r1"); ("title", JStr "T")])])
                "data" (JObj [("kind", JStr "t1"); ("data", JObj [("id", JStr "r1"); ("title", JStr "T")])])
              = Ok (JObj kv) /\ "T" = submission_text kv /\
              stype (mkSubmissionData (JStr "r1") (JNum 0) (JNum 0) (JStr "Unknown") (JStr "Unknown") REPLY)
              = REPLY) /\
  fetch_post_data_and_comment_ids (fun _ => Some (post_response [("id", JStr "p1")] [comment_child "c1"]))
    (fun _ => ["GME"]) (JStr "p1") [] = (Ok [JStr "c1"], []).
Proof.
  split; [|split; [|split]].
  - destruct (proj1 (proj2 (proj2 (proj2 extraction_text_rule)))
                [("selftext", JStr "Buy GME"); ("body", JNull); ("title", JStr "T")] POST)
      as [sd [H1 H2]]; [exact I | discriminate | exact I |].
    exists sd. split; [rewrite H1; reflexivity | exact H2].
  - destruct (proj1 (proj2 (proj2 (proj2 extraction_text_rule)))
                [("selftext", JStr " "); ("body", JStr " hi "); ("title", JNull)] COMMENT)
      as [sd [H1 H2]]; [exact I | intros _; exact I | reflexivity |].
    exists sd. split; [rewrite H1; reflexivity | exact H2].
  - apply (proj1 (proj2 (proj2 extraction_text_rule))
             (JObj [("kind", JStr "t1"); ("data", JObj [("id", JStr "r1"); ("title", JStr "T")])])
             (mkSubmissionData (JStr "r1") (JNum 0) (JNum 0) (JStr "Unknown") (JStr "Unknown") REPLY)
             "T"); reflexivity.
  - apply (proj1 (proj2 (proj2 (proj2 (proj2 extraction_text_rule))))
             (fun _ => Some (post_response [("id", JStr "p1")] [comment_child "c1"]))
             (fun _ => ["GME"]) (JStr "p1")
             (post_response [("id", JStr "p1")] [comment_child "c1"])
             (mkSubmissionData (JStr "p1") (JNum 0) (JNum 0) (JStr "Unknown") (JStr "Unknown") POST)
             [JStr "c1"] []); reflexivity.
Defined.

(* ------------------------------------------------------------------ *)
(** ** Claim about [make_api_call] *)

(** C8: one 429 then a success costs a GET, a 60 s sleep and a second GET,
    and yields that response, which the post task then handles exactly as a
    first-try success; two 429s yield [None] after the same effects, and the
    post and comment tasks turn [None] into an empty child list with nothing
    inserted.  No call makes more than two GETs, and the only sleep is 60 s. *)
Theorem make_api_call_retry_once :
  (forall j rest, make_api_call 0 (Resp429 :: Resp200 j :: rest) =
                  (Some j, [EGet; ESleep 60; EGet], rest)) /\
  (forall rest, make_api_call 0 (Resp429 :: Resp429 :: rest) =
                (None, [EGet; ESleep 60; EGet], rest)) /\
  (forall server, let '(_, eff, _) := make_api_call 0 server in
      count_gets eff <= 2 /\ (forall e, In e eff -> e = EGet \/ e = ESleep 60)) /\
  (forall server vld pid j rest db,
      server (ReqPost pid) = Resp429 :: Resp200 j :: rest ->
      fetch_post_data_and_comment_ids (api_of server) vld pid db =
      fetch_post_data_and_comment_ids (fun _ => Some j) vld pid db) /\
  (forall server vld pid rest db,
      server (ReqPost pid) = Resp429 :: Resp429 :: rest ->
      fetch_post_data_and_comment_ids (api_of server) vld pid db = (Ok [], db)) /\
  (forall server vld pid cid rest db,
      server (ReqComment pid cid) = Resp429 :: Resp429 :: rest ->
      fetch_comment_data (api_of server) vld cid pid db = (Ok [], db)).
Proof.
  split; [|split; [|split; [|split; [|split]]]].
  - reflexivity.
  - reflexivity.
  - intros server.
    destruct server as [|[j| |] [|[j'| |] rest]]; cbn; split; try lia;
      intros e He; repeat destruct He as [<-|He]; auto; contradiction.
  - intros server vld pid j rest db H.
    unfold fetch_post_data_and_comment_ids, api_of. rewrite H. reflexivity.
  - intros server vld pid rest db H.
    unfold fetch_post_data_and_comment_ids, api_of. rewrite H. reflexivity.
  - intros server vld pid cid rest db H.
    unfold fetch_comment_data, api_of. rewrite H. reflexivity.
Qed.

Lemma make_api_call_retry_once_witness :
  fetch_post_data_and_comment_ids
    (api_of (fun r => match r with
                      | ReqPost _ => [Resp429; Resp200 (post_response [("id", JStr "p1")] [comment_child "c1"])]
                      | _ => [] end))
    (fun _ => ["GME"]) (JStr "p1") [] =
  fetch_post_data_and_comment_ids
    (fun _ => Some (post_response [("id", JStr "p1")] [comment_child "c1"]))
    (fun _ => ["GME"]) (JStr "p1") [] /\
  fetch_post_data_and_comment_ids
    (api_of (fun _ => [Resp429; Resp429; Resp200 (post_response [] [])]))
    (fun _ => ["GME"]) (JStr "p1") [] = (Ok [], []) /\
  fetch_comment_data
    (api_of (fun _ => [Resp429; Resp429]))
    (fun _ => ["GME"]) (JStr "c1") (JStr "p1") [] = (Ok [], []).
Proof.
  destruct make_api_call_retry_once as [_ [_ [_ [H4 [H5 H6]]]]].
  split; [|split].
  - eapply H4. reflexivity.
  - eapply H5. reflexivity.
  - eapply H6. reflexivity.
Defined.

(* ------------------------------------------------------------------ *)
(** ** The permit pool *)

Module SemFacts.
Import Sem.

Definition inflight_bit (p : Phase) : nat := match p with InFlight => 1 | _ => 0 end.

Lemma count_app (l1 l2 : list (Tier * Phase)) :
  List.length (filter is_inflight (l1 ++ l2)) =
  List.length (filter is_inflight l1) + List.length (filter is_inflight l2).
Proof. rewrite filter_app, length_app. reflexivity. Qed.

Lemma count_repeat_waiting (t : Tier) (n : nat) :
  List.length (filter is_inflight (repeat (t, Waiting) n)) = 0.
Proof. induction n; simpl; auto. Qed.

Lemma count_set_phase (l : list (Tier * Phase)) (i : nat) (t : Tier) (p q : Phase) :
  nth_error l i = Some (t, p) ->
  List.length (filter is_inflight (set_phase l i q)) + inflight_bit p =
  List.length (filter is_inflight l) + inflight_bit q.
Proof.
  revert i; induction l as [|[t' p'] l IH]; intros i H; [destruct i; discriminate|].
  destruct i as [|i]; simpl in H |- *.
  - injection H as -> ->. destruct p, q; cbn; lia.
  - specialize (IH i H). destruct (is_inflight (t', p')); simpl; lia.
Qed.

Lemma nth_set_phase (l : list (Tier * Phase)) (i j : nat) (q : Phase) :
  nth_error (set_phase l i q) j =
  if Nat.eqb i j then option_map (fun x => (fst x, q)) (nth_error l j) else nth_error l j.
Proof.
  revert i j; induction l as [|[t p] l IH]; intros i j.
  - destruct i, j; simpl; try reflexivity. destruct (Nat.eqb i j); reflexivity.
  - destruct i as [|i], j as [|j]; simpl; try reflexivity. apply IH.
Qed.

Lemma step_preserves (C : nat) (s s' : State) :
  sem_value s + in_flight s = C -> step s s' -> sem_value s' + in_flight s' = C.
Proof.
  unfold in_flight. intros Hinv Hs. destruct Hs as [s tier n _|s i tier Hi Hpos|s i tier Hi|s i tier Hi];
    simpl.
  - rewrite count_app, count_repeat_waiting. lia.
  - pose proof (count_set_phase _ _ _ _ InFlight Hi). simpl in H. lia.
  - pose proof (count_set_phase _ _ _ _ Released Hi). simpl in H. lia.
  - pose proof (count_set_phase _ _ _ _ Finished Hi). simpl in H. lia.
Qed.

End SemFacts.

(** C1: in every state the event loop can reach from a pool of [C]
    permits, the permits held by tasks inside [async with self.semaphore]
    (post and comment tasks alike, one shared counter) plus the free permits
    make [C]; so at most [C] fetches are in flight.  A task only enters its
    fetch by taking a free permit, and it reaches the parsing phase only by
    giving its permit back when the fetch returns. *)
Theorem permit_pool_bound :
  forall (C : nat) (s : Sem.State),
    Sem.reachable C s ->
    Sem.sem_value s + Sem.in_flight s = C /\ Sem.in_flight s <= C /\
    (forall s' i t, Sem.step s s' ->
       nth_error (Sem.tasks s) i <> Some (t, Sem.InFlight) ->
       nth_error (Sem.tasks s') i = Some (t, Sem.InFlight) ->
       0 < Sem.sem_value s /\ Sem.sem_value s' = Sem.sem_value s - 1) /\
    (forall s' i t, Sem.step s s' ->
       nth_error (Sem.tasks s') i = Some (t, Sem.Released) ->
       nth_error (Sem.tasks s) i = Some (t, Sem.InFlight) \/
       nth_error (Sem.tasks s) i = Some (t, Sem.Released)).
Proof.
  intros C s Hr.
  assert (Hinv : Sem.sem_value s + Sem.in_flight s = C).
  { induction Hr as [|s s' _ IH Hs]; [cbn; lia|]. eapply SemFacts.step_preserves; eauto. }
  split; [exact Hinv|]. split; [lia|]. split.
  - intros s' i t Hs Hbefore Hafter.
    destruct Hs as [s tier n _|s i0 tier Hi Hpos|s i0 tier Hi|s i0 tier Hi]; simpl in Hafter |- *.
    + exfalso. destruct (Nat.lt_ge_cases i (List.length (Sem.tasks s))) as [Hl|Hl].
      * rewrite nth_error_app1 in Hafter by exact Hl. contradiction.
      * rewrite nth_error_app2 in Hafter by exact Hl.
        apply nth_error_In, repeat_spec in Hafter. discriminate.
    + split; [exact Hpos | reflexivity].
    + exfalso. rewrite SemFacts.nth_set_phase in Hafter.
      destruct (Nat.eqb i0 i) eqn:E; [|contradiction].
      destruct (nth_error (Sem.tasks s) i); discriminate.
    + exfalso. rewrite SemFacts.nth_set_phase in Hafter.
      destruct (Nat.eqb i0 i) eqn:E; [|contradiction].
      destruct (nth_error (Sem.tasks s) i); discriminate.
  - intros s' i t Hs Hafter.
    destruct Hs as [s tier n _|s i0 tier Hi Hpos|s i0 tier Hi|s i0 tier Hi]; simpl in Hafter |- *.
    + right. destruct (Nat.lt_ge_cases i (List.length (Sem.tasks s))) as [Hl|Hl].
      * rewrite nth_error_app1 in Hafter by exact Hl. exact Hafter.
      * exfalso. rewrite nth_error_app2 in Hafter by exact Hl.
        apply nth_error_In, repeat_spec in Hafter. discriminate.
    + rewrite SemFacts.nth_set_phase in Hafter.
      destruct (Nat.eqb i0 i) eqn:E; [|right; exact Hafter].
      exfalso. destruct (nth_error (Sem.tasks s) i); discriminate.
    + rewrite SemFacts.nth_set_phase in Hafter.
      destruct (Nat.eqb i0 i) eqn:E; [|right; exact Hafter].
      apply Nat.eqb_eq in E. subst i0. left.
      rewrite Hi in Hafter. simpl in Hafter. injection Hafter as ->. exact Hi.
    + rewrite SemFacts.nth_set_phase in Hafter.
      destruct (Nat.eqb i0 i) eqn:E; [|right; exact Hafter].
      exfalso. destruct (nth_error (Sem.tasks s) i); discriminate.
Qed.

Lemma permit_pool_bound_witness :
  Sem.in_flight (Sem.mkState 0 [(Sem.PostTier, Sem.InFlight); (Sem.PostTier, Sem.InFlight)]) <= 2.
Proof.
  pose (s0 := Sem.mkState 2 []).
  pose (s1 := Sem.mkState 2 [(Sem.PostTier, Sem.Waiting); (Sem.PostTier, Sem.Waiting)]).
  pose (s2 := Sem.mkState 1 [(Sem.PostTier, Sem.InFlight); (Sem.PostTier, Sem.Waiting)]).
  pose (s3 := Sem.mkState 0 [(Sem.PostTier, Sem.InFlight); (Sem.PostTier, Sem.InFlight)]).
  assert (H1 : Sem.reachable 2 s1).
  { exact (Sem.reach_step 2 s0 s1 (Sem.reach_init 2) (Sem.step_launch s0 Sem.PostTier 2 eq_refl)). }
  assert (H2 : Sem.reachable 2 s2).
  { refine (Sem.reach_step 2 s1 s2 H1 (Sem.step_acquire s1 0 Sem.PostTier eq_refl _)).
    cbn. lia. }
  assert (H3 : Sem.reachable 2 s3).
  { refine (Sem.reach_step 2 s2 s3 H2 (Sem.step_acquire s2 1 Sem.PostTier eq_refl _)).
    cbn. lia. }
  exact (proj1 (proj2 (permit_pool_bound 2 s3 H3))).
Defined.


(* ------------------------------------------------------------------ *)
(** ** Failure containment and parent tracking in the tracker *)

Lemma post_parse_none (raw : Json) (t : string) (ids : list Json) :
  parse_json_for_post_content raw = Ok (None, t, ids) -> t = "" /\ ids = [].
Proof.
  intros H. unfold parse_json_for_post_content, py_catch in H.
  match type of H with
  | match ?body with Ok _ => _ | Exc _ => _ end = _ => destruct body eqn:Hb
  end.
  - injection H as ->. peel Hb. discriminate Hb.
  - destruct (existsb _ _); [injection H as <- <-; auto | discriminate].
Qed.

(** C3 (code bug): a post whose parse fails by a caught exception ([KeyError],
    [TypeError], [IndexError], e.g. a missing key or index) is handled like a
    transport failure: no rows, no children.  But the parsers call [.get] on
    whatever they find, and the [AttributeError] this raises on a non-dict
    entry is not caught: at the failing input (post [p2] whose comment
    listing holds the string ["deleted"]) the exception leaves
    [parse_json_for_post_content], the post task and [asyncio.gather], and
    [process] aborts, so [p1]'s comment [c1] is never fetched and its GME
    mention is never inserted; with [p2]'s view missing its comment listing
    instead, the run goes on and inserts both mentions. *)
Theorem post_failure_containment :
  (forall api vld pid raw t db,
      api (ReqPost pid) = Some raw -> truthy raw = true ->
      parse_json_for_post_content raw = Ok (None, t, []) ->
      fetch_post_data_and_comment_ids api vld pid db =
      fetch_post_data_and_comment_ids (fun _ => None) vld pid db) /\
  parse_json_for_post_content (post_response [("id", JStr "p2")] [JStr "deleted"]) =
    Exc AttributeError /\
  process (sample_api (post_response [("id", JStr "p2")] [JStr "deleted"])) sample_vld [] =
    (Exc AttributeError,
     [(["TSLA"], mkSubmissionData (JStr "p1") (JNum 0) (JNum 0)
                   (JStr "Unknown") (JStr "Unknown") POST)]) /\
  process (sample_api (JList [JObj []])) sample_vld [] =
    (Ok tt,
     [(["TSLA"], mkSubmissionData (JStr "p1") (JNum 0) (JNum 0)
                   (JStr "Unknown") (JStr "Unknown") POST);
      (["GME"], mkSubmissionData (JStr "c1") (JNum 0) (JNum 0)
                  (JStr "Unknown") (JStr "Unknown") COMMENT)]).
Proof.
  split; [|split; [|split]].
  - intros api vld pid raw t db Hapi Ht Hp.
    unfold fetch_post_data_and_comment_ids. rewrite Hapi, Ht. cbn [negb].
    unfold bindM, lift. rewrite Hp. reflexivity.
  - vm_compute. reflexivity.
  - vm_compute. reflexivity.
  - vm_compute. reflexivity.
Qed.

Lemma post_failure_containment_witness :
  fetch_post_data_and_comment_ids (fun _ => Some (JList [JObj []])) sample_vld (JStr "p2") [] =
  fetch_post_data_and_comment_ids (fun _ => None) sample_vld (JStr "p2") [].
Proof.
  apply (proj1 post_failure_containment (fun _ => Some (JList [JObj []])) sample_vld
           (JStr "p2") (JList [JObj []]) "" []); reflexivity.
Defined.

(** C9 (code bug): the listing parser returns the truthy ids of a
    well-formed listing in order, and [[]] when [data] or [children] is
    missing; but on a listing whose [data] is not a dict ([{"data": []}])
    [.get] raises [AttributeError], which the [except (KeyError, TypeError)]
    misses: the exception leaves the parser and aborts [process]. *)
Theorem listing_parser_attribute_error :
  parse_json_for_post_ids (listing_response ["p1"; "p2"]) = Ok [JStr "p1"; JStr "p2"] /\
  parse_json_for_post_ids (JObj [("kind", JStr "Listing")]) = Ok [] /\
  parse_json_for_post_ids (JObj [("data", JList [])]) = Exc AttributeError /\
  process (fun r => match r with ReqListing => Some (JObj [("data", JList [])]) | _ => None end)
    sample_vld [] = (Exc AttributeError, []).
Proof. vm_compute. repeat split. Qed.

(** C2 (code bug): the comment tasks are built with the id of the post
    whose result listed them ([post_ids[i]] for [post_results[i]]); but
    [fetch_comment_data] uses that id only in the URL: the parsed comment
    record (utils' [SubmissionData], which has no parent field) and the row
    handed to [db.insert] are the same whatever the parent, here the row for
    comment [c1] of post [p1] carries no [p1]. *)
Theorem comment_row_ignores_parent :
  comment_task_args [JStr "p1"; JStr "p2"] 0 [[JStr "c1"]; [JStr "c2"; JStr "c3"]] =
    Ok [(JStr "c1", JStr "p1"); (JStr "c2", JStr "p2"); (JStr "c3", JStr "p2")] /\
  (forall raw vld cid pid pid',
      fetch_comment_data (fun _ => Some raw) vld cid pid =
      fetch_comment_data (fun _ => Some raw) vld cid pid') /\
  fetch_comment_data (sample_api p1_view) sample_vld (JStr "c1") (JStr "p1") [] =
    (Ok [], [(["GME"], mkSubmissionData (JStr "c1") (JNum 0) (JNum 0)
                         (JStr "Unknown") (JStr "Unknown") COMMENT)]).
Proof.
  split; [reflexivity|split].
  - intros. reflexivity.
  - vm_compute. reflexivity.
Qed.

(* ------------------------------------------------------------------ *)
(** ** [load_tickers] and [StocksDB.insert] *)

Module LoaderFacts.

Lemma py_eq_hashable_str (s : string) (y : Json) :
  py_eq_hashable (JStr s) y = true -> y = JStr s.
Proof.
  destruct y; cbn; try discriminate.
  intros H. apply String.eqb_eq in H. subst. reflexivity.
Qed.

Lemma py_set_add_In (x : Json) (st st' : list Json) (s : string) :
  py_set_add x st = Ok st' -> (In (JStr s) st' <-> In (JStr s) st \/ x = JStr s).
Proof.
  unfold py_set_add. destruct (hashable x); [|discriminate]. intros H; injection H as <-.
  destruct (existsb (py_eq_hashable x) st) eqn:E.
  - split; [auto|]. intros [H|H]; [exact H|subst].
    apply existsb_exists in E as [y [Hy Heq]]. apply py_eq_hashable_str in Heq. subst. exact Hy.
  - simpl. split; intros [H|H]; auto.
Qed.

Lemma add_tickers_good (entries st : list Json) :
  Forall (fun e => bad_entry e = false) entries ->
  exists st', add_tickers st entries = Ok st' /\
    forall s, In (JStr s) st' <->
      In (JStr s) st \/ exists e, In e entries /\ py_getitem_key e "ticker" = Ok (JStr s).
Proof.
  intros H; revert st; induction H as [|e entries He _ IH]; intros st.
  - exists st. split; [reflexivity|]. intros s. split; [auto|]. intros [H|[e [[] _]]]; exact H.
  - unfold bad_entry in He. cbn [add_tickers].
    destruct (py_getitem_key e "ticker") as [t|] eqn:Et; [|discriminate].
    cbn [py_bind]. unfold py_set_add. destruct (hashable t) eqn:Hh; [|discriminate].
    cbn [py_bind].
    set (st1 := if existsb (py_eq_hashable t) st then st else t :: st).
    assert (Hst1 : py_set_add t st = Ok st1) by (unfold py_set_add; rewrite Hh; reflexivity).
    destruct (IH st1) as [st' [Hr Hin]]. exists st'. split; [exact Hr|].
    intros s. rewrite Hin, (py_set_add_In t st st1 s Hst1). split.
    + intros [[H|H]|[e' [H1 H2]]]; [left; exact H| |right; exists e'; split; [right|]; assumption].
      subst t. right. exists e. split; [left; reflexivity|exact Et].
    + intros [H|[e' [[<-|H1] H2]]]; [left; left; exact H| |right; exists e'; split; assumption].
      left; right. congruence.
Qed.

Lemma add_tickers_bad (entries st : list Json) :
  existsb bad_entry entries = true -> exists e, add_tickers st entries = Exc e.
Proof.
  revert st; induction entries as [|e entries IH]; intros st H; [discriminate|].
  cbn [existsb] in H. cbn [add_tickers]. unfold bad_entry in H.
  destruct (py_getitem_key e "ticker") as [t|ex]; cbn [py_bind]; [|exists ex; reflexivity].
  unfold py_set_add. destruct (hashable t); cbn [py_bind negb orb] in H |- *;
    [apply IH; exact H|exists TypeError; reflexivity].
Qed.

Lemma insert_loop_ok (accepts : list Json -> bool) (tickers : list string)
  (sd : SubmissionData) (dt : Json) :
  forallb accepts (map (fun t => insert_params t sd dt) tickers) = true ->
  insert_loop accepts tickers sd dt = (map (fun t => SqlInsert (insert_params t sd dt)) tickers, true).
Proof.
  induction tickers as [|t tickers IH]; simpl; [reflexivity|].
  intros H. apply andb_true_iff in H as [H1 H2]. rewrite H1, (IH H2). reflexivity.
Qed.

Lemma insert_loop_stop (accepts : list Json -> bool) (pre post : list string) (t : string)
  (sd : SubmissionData) (dt : Json) :
  forallb accepts (map (fun t => insert_params t sd dt) pre) = true ->
  accepts (insert_params t sd dt) = false ->
  insert_loop accepts (pre ++ t :: post) sd dt =
    (map (fun t => SqlInsert (insert_params t sd dt)) (pre ++ [t]), false).
Proof.
  induction pre as [|p pre IH]; simpl; intros H1 H2.
  - rewrite H2. reflexivity.
  - apply andb_true_iff in H1 as [H1 H3]. rewrite H1, (IH H3 H2). reflexivity.
Qed.

End LoaderFacts.

Import LoaderFacts.

(** [load_tickers] on a dict response whose entries all have a hashable
    ['ticker']: the loaded set holds exactly the strings it held before and
    the string tickers of the entries. *)
Theorem load_tickers_success (valid_tickers FALLBACK : list Json) (kv : list (string * Json)) :
  Forall (fun e => bad_entry e = false) (map snd kv) ->
  forall s, In (JStr s) (load_tickers valid_tickers FALLBACK (Some (JObj kv))) <->
    In (JStr s) valid_tickers \/
    exists e, In e (map snd kv) /\ py_getitem_key e "ticker" = Ok (JStr s).
Proof.
  intros H s. destruct (add_tickers_good (map snd kv) valid_tickers H) as [st' [Hr Hin]].
  unfold load_tickers. cbn [py_values py_bind]. rewrite Hr. apply Hin.
Qed.

Lemma load_tickers_success_witness :
  Forall (fun e => bad_entry e = false)
    (map snd [("0", JObj [("ticker", JStr "AAPL")]); ("1", JObj [("cik_str", JNum 7); ("ticker", JStr "GME")])]) /\
  (In (JStr "GME") (load_tickers [] [JStr "FALLBACK"]
      (Some (JObj [("0", JObj [("ticker", JStr "AAPL")]); ("1", JObj [("cik_str", JNum 7); ("ticker", JStr "GME")])]))) <->
   In (JStr "GME") [] \/
   exists e, In e (map snd [("0", JObj [("ticker", JStr "AAPL")]); ("1", JObj [("cik_str", JNum 7); ("ticker", JStr "GME")])]) /\
             py_getitem_key e "ticker" = Ok (JStr "GME")).
Proof.
  assert (H : Forall (fun e => bad_entry e = false)
    (map snd [("0", JObj [("ticker", JStr "AAPL")]); ("1", JObj [("cik_str", JNum 7); ("ticker", JStr "GME")])]))
    by (repeat constructor).
  split; [exact H|]. exact (load_tickers_success [] [JStr "FALLBACK"] _ H "GME").
Defined.

(** [load_tickers] replaces the set by [FALLBACK], discarding the tickers
    added so far, when the request fails, when the response is not a dict,
    or when any entry lacks a ['ticker'] or has an unhashable one. *)
Theorem load_tickers_fallback (valid_tickers FALLBACK : list Json) (response : option Json) :
  response = None \/ (exists d, response = Some d /\ is_dict d = false) \/
  (exists kv, response = Some (JObj kv) /\ existsb bad_entry (map snd kv) = true) ->
  load_tickers valid_tickers FALLBACK response = FALLBACK.
Proof.
  intros [->|[[d [-> Hd]]|[kv [-> Hb]]]]; unfold load_tickers.
  - reflexivity.
  - destruct d; try discriminate; reflexivity.
  - cbn [py_values py_bind]. destruct (add_tickers_bad _ valid_tickers Hb) as [e ->]. reflexivity.
Qed.

Lemma load_tickers_fallback_witness :
  load_tickers [] [JStr "FALLBACK"]
    (Some (JObj [("0", JObj [("ticker", JStr "AAPL")]); ("1", JObj [("cik_str", JNum 7)])])) =
  [JStr "FALLBACK"].
Proof.
  apply load_tickers_fallback. right; right. eexists. split; [reflexivity|]. vm_compute. reflexivity.
Defined.

(** [StocksDB.insert] sends one INSERT per ticker, in order, each with the
    submission's id, author, subreddit, score, the integer value of its
    [utils.SubmissionType] and its timestamp, then commits once; when the
    timestamp conversion raises nothing is sent, and when the server rejects
    a row the INSERTs stop there and nothing is committed. *)
Theorem insert_statements (fromtimestamp : Json -> option Json) (accepts : list Json -> bool)
  (tickers : list string) (submission : SubmissionData) :
  (fromtimestamp (created_utc submission) = None ->
     insert fromtimestamp accepts tickers submission = ([], false)) /\
  (forall created_dt, fromtimestamp (created_utc submission) = Some created_dt ->
     (forallb accepts (map (fun t => insert_params t submission created_dt) tickers) = true ->
        insert fromtimestamp accepts tickers submission =
        (map (fun t => SqlInsert (insert_params t submission created_dt)) tickers ++ [SqlCommit], true)) /\
     (forall pre t post, tickers = pre ++ t :: post ->
        forallb accepts (map (fun t => insert_params t submission created_dt) pre) = true ->
        accepts (insert_params t submission created_dt) = false ->
        insert fromtimestamp accepts tickers submission =
        (map (fun t => SqlInsert (insert_params t submission created_dt)) (pre ++ [t]), false))).
Proof.
  unfold insert. split.
  - intros ->. reflexivity.
  - intros dt ->. split.
    + intros H. rewrite (insert_loop_ok accepts tickers submission dt H). reflexivity.
    + intros pre t post -> H1 H2. rewrite (insert_loop_stop accepts pre post t submission dt H1 H2).
      reflexivity.
Qed.

Lemma insert_statements_witness :
  insert (fun j => Some j) (fun p => negb (existsb (py_eq_hashable (JStr "TOOLONG")) p))
    ["GME"; "TOOLONG"; "TSLA"]
    (mkSubmissionData (JStr "c1") (JNum 3) (JNum 1700000000) (JStr "bob") (JStr "stocks") COMMENT) =
  ([SqlInsert [JStr "c1"; JStr "GME"; JStr "bob"; JStr "stocks"; JNum 3; JNum 1; JNum 1700000000];
    SqlInsert [JStr "c1"; JStr "TOOLONG"; JStr "bob"; JStr "stocks"; JNum 3; JNum 1; JNum 1700000000]],
   false).
Proof.
  exact (proj2 (proj2 (insert_statements (fun j => Some j)
           (fun p => negb (existsb (py_eq_hashable (JStr "TOOLONG")) p))
           ["GME"; "TOOLONG"; "TSLA"]
           (mkSubmissionData (JStr "c1") (JNum 3) (JNum 1700000000) (JStr "bob") (JStr "stocks") COMMENT))
           (JNum 1700000000) eq_refl) ["GME"] "TOOLONG" ["TSLA"] eq_refl eq_refl eq_refl).
Defined.

(* ------------------------------------------------------------------ *)
(** ** Chunking in [validate] *)

Module ChunkFacts.

Lemma str_append_length (a b : string) :
  String.length (String.append a b) = String.length a + String.length b.
Proof. induction a as [|c a IH]; simpl; [reflexivity|rewrite IH; reflexivity]. Qed.

Lemma rev_str_length (s acc : string) :
  String.length (rev_str s acc) = String.length s + String.length acc.
Proof. revert acc; induction s as [|c s IH]; intros acc; simpl; [reflexivity|rewrite IH; simpl; lia]. Qed.

Lemma lstrip_length (s : string) : String.length (lstrip s) <= String.length s.
Proof. induction s as [|c s IH]; simpl; [lia|destruct (is_space c); simpl; lia]. Qed.

Lemma strip_length (s : string) : String.length (strip s) <= String.length s.
Proof.
  unfold strip, rstrip. rewrite rev_str_length. simpl.
  pose proof (lstrip_length (rev_str (lstrip s) "")) as H1.
  rewrite rev_str_length in H1. simpl in H1. pose proof (lstrip_length s). lia.
Qed.

Lemma chunk_loop_bound (lines : list string) (cur : string) :
  String.length cur <= max_chars ->
  Forall (fun l => String.length l < max_chars) lines ->
  forall c, In c (chunk_loop lines cur) -> String.length c <= max_chars.
Proof.
  revert cur; induction lines as [|line lines IH]; intros cur Hc Hl c Hin; cbn [chunk_loop] in Hin.
  - destruct (String.eqb cur ""); [destruct Hin|].
    destruct Hin as [<-|[]]. pose proof (strip_length cur). lia.
  - inversion Hl as [|? ? Hline Hrest]; subst.
    destruct (Nat.leb (String.length cur + String.length line + 1) max_chars) eqn:E.
    + apply Nat.leb_le in E. refine (IH _ _ Hrest c Hin).
      rewrite !str_append_length. simpl. lia.
    + apply in_app_or in Hin as [Hin|Hin].
      * destruct (String.eqb cur ""); [destruct Hin|].
        destruct Hin as [<-|[]]. pose proof (strip_length cur). lia.
      * refine (IH _ _ Hrest c Hin). rewrite !str_append_length. simpl. lia.
Qed.

Lemma lines_short (lines : list string) :
  forallb (fun l => Nat.ltb (String.length l) max_chars) lines = true ->
  Forall (fun l => String.length l < max_chars) lines.
Proof.
  intros H. apply Forall_forall. intros l Hl. rewrite forallb_forall in H.
  apply Nat.ltb_lt. exact (H l Hl).
Qed.

Lemma rev_str_append (a b acc : string) :
  rev_str (String.append a b) acc = rev_str b (rev_str a acc).
Proof. revert acc; induction a as [|c a IH]; intros acc; simpl; [reflexivity|apply IH]. Qed.

Lemma lstrip_append_newline (s : string) :
  lstrip (String.append s (String newline EmptyString)) =
  if String.eqb (lstrip s) "" then "" else String.append (lstrip s) (String newline EmptyString).
Proof.
  induction s as [|c s IH]; [reflexivity|]. cbn [String.append lstrip].
  destruct (is_space c); [exact IH|reflexivity].
Qed.

Lemma rstrip_append_newline (t : string) :
  rstrip (String.append t (String newline EmptyString)) = rstrip t.
Proof. unfold rstrip. rewrite rev_str_append. reflexivity. Qed.

Lemma strip_append_newline (s : string) :
  strip (String.append s (String newline EmptyString)) = strip s.
Proof.
  unfold strip. rewrite lstrip_append_newline.
  destruct (String.eqb_spec (lstrip s) "") as [->|_]; [reflexivity|].
  apply rstrip_append_newline.
Qed.

Lemma chunk_loop_head (lines : list string) (cur : string) :
  max_chars < String.length cur -> In (strip cur) (chunk_loop lines cur).
Proof.
  intros H. destruct cur as [|c cur']; [simpl in H; lia|].
  destruct lines as [|line rest]; cbn [chunk_loop]; cbn [String.eqb].
  - left. reflexivity.
  - destruct (Nat.leb_spec (String.length (String c cur') + String.length line + 1) max_chars);
      [lia|]. apply in_or_app. left. left. reflexivity.
Qed.

Lemma chunk_loop_long_line (lines : list string) (cur L : string) :
  In L lines -> max_chars <= String.length L -> In (strip L) (chunk_loop lines cur).
Proof.
  revert cur; induction lines as [|line rest IH]; intros cur Hin Hlen; [destruct Hin|].
  cbn [chunk_loop]. destruct Hin as [->|Hin].
  - destruct (Nat.leb_spec (String.length cur + String.length L + 1) max_chars); [lia|].
    apply in_or_app. right. rewrite <- (strip_append_newline L).
    apply chunk_loop_head. rewrite str_append_length. simpl. lia.
  - destruct (Nat.leb _ _); [apply IH; assumption|].
    apply in_or_app. right. apply IH; assumption.
Qed.

End ChunkFacts.

Import ChunkFacts.

(** Every chunk [validate] hands to the entity model has at most
    [max_chars] = 1200 characters when every line of the text is shorter
    than 1200 characters.  A line of 1200 characters or more is never split:
    in a text longer than 1200 characters, the stripped line is itself one
    of the chunks; a text that is a single such line gives exactly one
    chunk, the stripped text. *)
Theorem chunks_bounded :
  (forall text, Forall (fun l => String.length l < max_chars) (split_lines text) ->
     forall c, In c (chunks_of text) -> String.length c <= max_chars) /\
  (forall text line, max_chars < String.length text ->
     In line (split_lines text) -> max_chars <= String.length line ->
     In (strip line) (chunks_of text)) /\
  (forall text, max_chars < String.length text -> split_lines text = [text] ->
     chunks_of text = [strip text]).
Proof.
  split; [|split].
  - intros text Hl c Hin. unfold chunks_of in Hin.
    destruct (Nat.ltb max_chars (String.length text)) eqn:E.
    + refine (chunk_loop_bound _ "" _ Hl c Hin). simpl. unfold max_chars. lia.
    + apply Nat.ltb_ge in E. destruct Hin as [<-|[]]. exact E.
  - intros text line Ht Hin Hlen. unfold chunks_of.
    apply Nat.ltb_lt in Ht. rewrite Ht. apply chunk_loop_long_line; assumption.
  - intros text Ht Hs. unfold chunks_of.
    pose proof Ht as Ht'. apply Nat.ltb_lt in Ht'. rewrite Ht', Hs. cbn [chunk_loop].
    destruct (Nat.leb_spec (String.length "" + String.length text + 1) max_chars);
      [simpl in *; lia|].
    cbn [String.eqb app chunk_loop].
    destruct text as [|c text']; [simpl in Ht; lia|]. cbn [String.append String.eqb].
    rewrite <- (strip_append_newline (String c text')). reflexivity.
Qed.

Lemma chunks_bounded_witness :
  Forall (fun l => String.length l < max_chars)
    (split_lines (String.append (str_repeat 700 "a"%char)
                   (String newline (str_repeat 700 "b"%char)))) /\
  (forall c, In c (chunks_of (String.append (str_repeat 700 "a"%char)
                               (String newline (str_repeat 700 "b"%char)))) ->
             String.length c <= max_chars) /\
  In (str_repeat 1300 "a"%char)
     (chunks_of (String.append (str_repeat 1300 "a"%char)
                  (String newline (str_repeat 10 "b"%char)))) /\
  chunks_of (String.append (str_repeat 200 " "%char) (str_repeat 1100 "a"%char)) =
  [str_repeat 1100 "a"%char].
Proof.
  assert (H : Forall (fun l => String.length l < max_chars)
    (split_lines (String.append (str_repeat 700 "a"%char)
                   (String newline (str_repeat 700 "b"%char)))))
    by (apply lines_short; vm_compute; reflexivity).
  split; [exact H|]. split; [exact (proj1 chunks_bounded _ H)|]. split.
  - replace (str_repeat 1300 "a"%char) with (strip (str_repeat 1300 "a"%char)) at 1
      by (vm_compute; reflexivity).
    apply (proj1 (proj2 chunks_bounded)).
    + apply Nat.ltb_lt. vm_compute. reflexivity.
    + vm_compute. left. reflexivity.
    + apply Nat.leb_le. vm_compute. reflexivity.
  - rewrite (proj2 (proj2 chunks_bounded)).
    + vm_compute. reflexivity.
    + apply Nat.ltb_lt. vm_compute. reflexivity.
    + vm_compute. reflexivity.
Defined.

(* ------------------------------------------------------------------ *)
(** ** The parsers on well-formed, partial and wrapped responses *)


(** [parse_json_for_post_ids] returns [[]] when the listing dict has no
    [data] key, when [data] has no [children] key, or when [children] is
    [None], a bool or a number (the [TypeError] of iterating it is caught);
    on a [children] list of dicts whose [data] is a dict (or absent) it
    returns the truthy [data.id]s of the children, in order. *)
Theorem listing_parser_shapes :
  (forall kv, assoc_lookup "data" kv = None -> parse_json_for_post_ids (JObj kv) = Ok []) /\
  (forall kv dkv, assoc_lookup "data" kv = Some (JObj dkv) -> assoc_lookup "children" dkv = None ->
     parse_json_for_post_ids (JObj kv) = Ok []) /\
  (forall kv dkv v, assoc_lookup "data" kv = Some (JObj dkv) -> assoc_lookup "children" dkv = Some v ->
     (v = JNull \/ (exists b, v = JBool b) \/ (exists z, v = JNum z)) ->
     parse_json_for_post_ids (JObj kv) = Ok []) /\
  (forall kv dkv children,
     assoc_lookup "data" kv = Some (JObj dkv) -> assoc_lookup "children" dkv = Some (JList children) ->
     Forall (fun c => child_ok c = true) children ->
     parse_json_for_post_ids (JObj kv) = Ok (flat_map child_id children)).
Proof.
  unfold parse_json_for_post_ids. split; [|split; [|split]].
  - intros kv H. rewrite py_get_obj, H. reflexivity.
  - intros kv dkv H1 H2. rewrite py_get_obj, H1. cbn [py_bind]. rewrite py_get_obj, H2. reflexivity.
  - intros kv dkv v H1 H2 Hv. rewrite py_get_obj, H1. cbn [py_bind]. rewrite py_get_obj, H2.
    destruct Hv as [->|[[b ->]|[z ->]]]; reflexivity.
  - intros kv dkv ch H1 H2 Hc. rewrite py_get_obj, H1. cbn [py_bind]. rewrite py_get_obj, H2.
    cbn [py_bind py_iter]. rewrite post_ids_loop_ok by exact Hc. reflexivity.
Qed.

Lemma listing_parser_shapes_witness :
  parse_json_for_post_ids (JObj [("data", JObj [("children", JNum 3)])]) = Ok [] /\
  parse_json_for_post_ids (listing_response ["a"; "b"]) =
    Ok (flat_map child_id (map (fun i => JObj [("data", JObj [("id", JStr i)])]) ["a"; "b"])).
Proof.
  split.
  - apply (proj1 (proj2 (proj2 listing_parser_shapes)) [("data", JObj [("children", JNum 3)])]
             [("children", JNum 3)] (JNum 3)); [reflexivity|reflexivity|right; right; exists 3%Z; reflexivity].
  - apply (proj2 (proj2 (proj2 listing_parser_shapes))
             [("data", JObj [("children", JList (map (fun i => JObj [("data", JObj [("id", JStr i)])]) ["a"; "b"]))])]
             [("children", JList (map (fun i => JObj [("data", JObj [("id", JStr i)])]) ["a"; "b"]))]);
      [reflexivity|reflexivity|repeat constructor].
Defined.

(** [parse_json_for_post_content] returns [(None, "", [])] whenever
    [raw_json[1]] fails (the response is not a list, is a dict, or has fewer
    than two items).  It also does so when the comment listing [raw_json[1]]
    is a dict (extra keys such as [kind] allowed) whose [data] dict holds a
    [children] list of dicts with dict (or absent) [data], but the post
    listing [raw_json[0]] is a dict with no child: no [data] key, a [data]
    dict with no [children] key, or an empty [children] list.  The comment
    ids it had already collected are then dropped. *)
Theorem post_content_parse_failures :
  (forall raw, (forall r, py_getitem_idx raw 1 <> Ok r) ->
     parse_json_for_post_content raw = Ok (None, "", [])) /\
  (forall (kv0 kv1 dkv1 : list (string * Json)) (comments rest : list Json),
     (assoc_lookup "data" kv0 = None \/
      exists dkv0, assoc_lookup "data" kv0 = Some (JObj dkv0) /\
        (assoc_lookup "children" dkv0 = None \/ assoc_lookup "children" dkv0 = Some (JList []))) ->
     assoc_lookup "data" kv1 = Some (JObj dkv1) ->
     assoc_lookup "children" dkv1 = Some (JList comments) ->
     Forall (fun c => child_ok c = true) comments ->
     parse_json_for_post_content (JList (JObj kv0 :: JObj kv1 :: rest)) = Ok (None, "", [])).
Proof.
  split.
  - intros raw H. unfold parse_json_for_post_content.
    destruct (py_getitem_idx raw 1) as [r|e] eqn:E; [exfalso; exact (H r eq_refl)|].
    cbn [py_bind py_catch]. rewrite (idx_exc_caught raw 1 e E). reflexivity.
  - intros kv0 kv1 dkv1 comments rest H0 H1 H2 Hc.
    destruct (comment_ids_loop_ok 0 [] comments Hc) as [ids Hids].
    unfold parse_json_for_post_content. cbn [py_getitem_idx nth_error py_bind].
    rewrite (getitem_key_obj _ _ _ H1). cbn [py_bind].
    rewrite (getitem_key_obj _ _ _ H2). cbn [py_bind py_iter].
    rewrite Hids. cbn [py_bind py_getitem_idx nth_error].
    destruct H0 as [H0|[dkv0 [H0 [H3|H3]]]].
    + rewrite (getitem_key_missing _ _ H0). reflexivity.
    + rewrite (getitem_key_obj _ _ _ H0). cbn [py_bind].
      rewrite (getitem_key_missing _ _ H3). reflexivity.
    + rewrite (getitem_key_obj _ _ _ H0). cbn [py_bind].
      rewrite (getitem_key_obj _ _ _ H3). reflexivity.
Qed.

Lemma post_content_parse_failures_witness :
  parse_json_for_post_content (JList [JObj [("data", JObj [("children", JList [])])]]) =
    Ok (None, "", []) /\
  parse_json_for_post_content
    (JList [JObj [("kind", JStr "Listing"); ("data", JObj [("after", JNull); ("children", JList [])])];
            JObj [("kind", JStr "Listing");
                  ("data", JObj [("after", JNull); ("children", JList [comment_child "c1"])])]]) =
    Ok (None, "", []) /\
  parse_json_for_post_content
    (JList [JObj [("kind", JStr "Listing")];
            JObj [("kind", JStr "Listing");
                  ("data", JObj [("children", JList [comment_child "c1"; comment_child "c2"])])]]) =
    Ok (None, "", []).
Proof.
  split; [|split].
  - apply (proj1 post_content_parse_failures). intros r. discriminate.
  - apply (proj2 post_content_parse_failures
             [("kind", JStr "Listing"); ("data", JObj [("after", JNull); ("children", JList [])])]
             [("kind", JStr "Listing");
              ("data", JObj [("after", JNull); ("children", JList [comment_child "c1"])])]
             [("after", JNull); ("children", JList [comment_child "c1"])]
             [comment_child "c1"] []).
    + right. exists [("after", JNull); ("children", JList [])]. split; [reflexivity|right; reflexivity].
    + reflexivity.
    + reflexivity.
    + repeat constructor.
  - apply (proj2 post_content_parse_failures
             [("kind", JStr "Listing")]
             [("kind", JStr "Listing");
              ("data", JObj [("children", JList [comment_child "c1"; comment_child "c2"])])]
             [("children", JList [comment_child "c1"; comment_child "c2"])]
             [comment_child "c1"; comment_child "c2"] []).
    + left. reflexivity.
    + reflexivity.
    + reflexivity.
    + repeat constructor.
Defined.

(** [parse_json_for_comment_content] parses the first child of the comment
    listing [raw_json[1]] (a dict; extra keys such as [kind] and later
    children are ignored) as a COMMENT with the extraction text of its
    [data] dict.  Its reply objects are the [children] list of a dict
    [replies] listing ([{"kind": ..., "data": {"children": [...], ...}}]),
    and [[]] when [replies] is absent or a string (Reddit's [""] for a
    comment without replies), or a dict with no [data] or whose [data] has
    no [children]. *)
Theorem comment_replies_shapes (r0 : Json) (kv1 dkv1 ckv fields : list (string * Json))
  (more rest : list Json) :
  assoc_lookup "data" kv1 = Some (JObj dkv1) ->
  assoc_lookup "children" dkv1 = Some (JList (JObj ckv :: more)) ->
  assoc_lookup "data" ckv = Some (JObj fields) ->
  str_or_absent fields "selftext" -> str_or_absent fields "body" -> str_or_absent fields "title" ->
  let raw := JList (r0 :: JObj kv1 :: rest) in
  exists sd, stype sd = COMMENT /\
    ((assoc_lookup "replies" fields = None \/ exists s, assoc_lookup "replies" fields = Some (JStr s)) ->
       parse_json_for_comment_content raw = Ok (Some sd, submission_text fields, [])) /\
    (forall rkv rdkv replies,
       assoc_lookup "replies" fields = Some (JObj rkv) ->
       assoc_lookup "data" rkv = Some (JObj rdkv) ->
       assoc_lookup "children" rdkv = Some (JList replies) ->
       parse_json_for_comment_content raw = Ok (Some sd, submission_text fields, replies)) /\
    (forall rkv,
       assoc_lookup "replies" fields = Some (JObj rkv) ->
       assoc_lookup "data" rkv = None ->
       parse_json_for_comment_content raw = Ok (Some sd, submission_text fields, [])) /\
    (forall rkv rdkv,
       assoc_lookup "replies" fields = Some (JObj rkv) ->
       assoc_lookup "data" rkv = Some (JObj rdkv) ->
       assoc_lookup "children" rdkv = None ->
       parse_json_for_comment_content raw = Ok (Some sd, submission_text fields, [])).
Proof.
  intros H1 H2 H3 Hs Hb Ht raw. exact (comment_parse_general r0 kv1 dkv1 ckv fields more rest H1 H2 H3 Hs Hb Ht).
Qed.

Lemma comment_replies_shapes_witness :
  (exists sd, parse_json_for_comment_content
    (JList [JObj [("kind", JStr "Listing")];
            JObj [("kind", JStr "Listing");
                  ("data", JObj [("after", JNull);
                    ("children", JList [JObj [("kind", JStr "t1"); ("data", JObj
                      [("id", JStr "c1"); ("replies", JStr ""); ("body", JStr " GME ")])];
                                        comment_child "c2"])])]]) =
    Ok (Some sd, "GME", [])) /\
  (exists sd, parse_json_for_comment_content
    (JList [JObj [("kind", JStr "Listing")];
            JObj [("kind", JStr "Listing");
                  ("data", JObj [("children", JList [JObj [("kind", JStr "t1"); ("data", JObj
                      [("id", JStr "c1"); ("body", JStr "GME");
                       ("replies", JObj [("kind", JStr "Listing");
                          ("data", JObj [("after", JNull); ("children", JList [comment_child "r1"])])])])]])])]]) =
    Ok (Some sd, "GME", [comment_child "r1"])).
Proof.
  split.
  - destruct (comment_replies_shapes (JObj [("kind", JStr "Listing")])
      [("kind", JStr "Listing");
       ("data", JObj [("after", JNull);
         ("children", JList [JObj [("kind", JStr "t1"); ("data", JObj
           [("id", JStr "c1"); ("replies", JStr ""); ("body", JStr " GME ")])];
                             comment_child "c2"])])]
      [("after", JNull);
       ("children", JList [JObj [("kind", JStr "t1"); ("data", JObj
         [("id", JStr "c1"); ("replies", JStr ""); ("body", JStr " GME ")])];
                           comment_child "c2"])]
      [("kind", JStr "t1"); ("data", JObj
         [("id", JStr "c1"); ("replies", JStr ""); ("body", JStr " GME ")])]
      [("id", JStr "c1"); ("replies", JStr ""); ("body", JStr " GME ")]
      [comment_child "c2"] [])
      as [sd [_ [Hs _]]]; try reflexivity; try exact I.
    exists sd. rewrite Hs; [reflexivity|]. right. exists "". reflexivity.
  - destruct (comment_replies_shapes (JObj [("kind", JStr "Listing")])
      [("kind", JStr "Listing");
       ("data", JObj [("children", JList [JObj [("kind", JStr "t1"); ("data", JObj
           [("id", JStr "c1"); ("body", JStr "GME");
            ("replies", JObj [("kind", JStr "Listing");
               ("data", JObj [("after", JNull); ("children", JList [comment_child "r1"])])])])]])])]
      [("children", JList [JObj [("kind", JStr "t1"); ("data", JObj
           [("id", JStr "c1"); ("body", JStr "GME");
            ("replies", JObj [("kind", JStr "Listing");
               ("data", JObj [("after", JNull); ("children", JList [comment_child "r1"])])])])]])]
      [("kind", JStr "t1"); ("data", JObj
           [("id", JStr "c1"); ("body", JStr "GME");
            ("replies", JObj [("kind", JStr "Listing");
               ("data", JObj [("after", JNull); ("children", JList [comment_child "r1"])])])])]
      [("id", JStr "c1"); ("body", JStr "GME");
       ("replies", JObj [("kind", JStr "Listing");
          ("data", JObj [("after", JNull); ("children", JList [comment_child "r1"])])])]
      [] [])
      as [sd [_ [_ [Hd _]]]]; try reflexivity; try exact I.
    exists sd. rewrite (Hd [("kind", JStr "Listing");
                            ("data", JObj [("after", JNull); ("children", JList [comment_child "r1"])])]
                           [("after", JNull); ("children", JList [comment_child "r1"])]
                           [comment_child "r1"]); reflexivity.
Defined.

Module ReplyFacts.

Lemma reply_parse_ok (raw : Json) (kv : list (string * Json)) :
  py_get raw "data" raw = Ok (JObj kv) ->
  str_or_absent kv "selftext" -> str_or_absent kv "body" -> str_or_absent kv "title" ->
  exists sd, parse_json_for_reply_content raw = Ok (Some sd, submission_text kv) /\ stype sd = REPLY.
Proof.
  intros H Hs Hb Ht. destruct (extract_ok kv REPLY Hs Hb Ht) as [sd [Hx Hty]].
  exists sd. split; [|exact Hty].
  unfold parse_json_for_reply_content. rewrite H. cbn [py_bind]. rewrite Hx. reflexivity.
Qed.

End ReplyFacts.

Import ReplyFacts.

(** [parse_json_for_reply_content] unwraps one [{"kind": ..., "data": d}]
    level: a wrapped reply parses exactly as its [data] dict (when that has
    no [data] key of its own); a reply whose [data] (or, without [data], the
    object itself) is a dict with string-or-absent [selftext], [body] and
    [title] parses as a REPLY whose text is the extraction text. *)
Theorem reply_parse_shapes :
  (forall wkv kv, assoc_lookup "data" wkv = Some (JObj kv) -> assoc_lookup "data" kv = None ->
     parse_json_for_reply_content (JObj wkv) = parse_json_for_reply_content (JObj kv)) /\
  (forall raw kv, py_get raw "data" raw = Ok (JObj kv) ->
     str_or_absent kv "selftext" -> str_or_absent kv "body" -> str_or_absent kv "title" ->
     exists sd, parse_json_for_reply_content raw = Ok (Some sd, submission_text kv) /\ stype sd = REPLY).
Proof.
  split.
  - intros wkv kv H1 H2. unfold parse_json_for_reply_content.
    rewrite (py_get_obj wkv), H1, (py_get_obj kv), H2. reflexivity.
  - exact reply_parse_ok.
Qed.

Lemma reply_parse_shapes_witness :
  parse_json_for_reply_content (JObj [("kind", JStr "t1"); ("data", JObj [("body", JStr "GME"); ("score", JNum 4)])]) =
  parse_json_for_reply_content (JObj [("body", JStr "GME"); ("score", JNum 4)]) /\
  exists sd, parse_json_for_reply_content (JObj [("body", JStr "GME")]) =
             Ok (Some sd, submission_text [("body", JStr "GME")]) /\ stype sd = REPLY.
Proof.
  split.
  - apply (proj1 reply_parse_shapes); reflexivity.
  - apply (proj2 reply_parse_shapes (JObj [("body", JStr "GME")])); [reflexivity|exact I|exact I|exact I].
Defined.



(* ------------------------------------------------------------------ *)
(** ** What the tasks and the run insert *)

Module RowFacts.

Lemma bindM_ok {A B} (m : M A) (k : A -> M B) (db db' : list Row) (a : A) :
  m db = (Ok a, db') -> bindM m k db = k a db'.
Proof. intros H. unfold bindM. rewrite H. reflexivity. Qed.

Lemma bindM_exc {A B} (m : M A) (k : A -> M B) (db db' : list Row) (e : PyExc) :
  m db = (Exc e, db') -> bindM m k db = (Exc e, db').
Proof. intros H. unfold bindM. rewrite H. reflexivity. Qed.

Lemma extract_stype (js : Json) (ty : SubmissionType) (t : string) (sd : SubmissionData) :
  extract_submission_data js ty = Ok (t, sd) -> stype sd = ty.
Proof. intros H. unfold extract_submission_data in H. peel H. injection H as _ <-. reflexivity. Qed.

Lemma post_parse_stype (raw : Json) (sd : SubmissionData) (t : string) (ids : list Json) :
  parse_json_for_post_content raw = Ok (Some sd, t, ids) -> stype sd = POST.
Proof.
  intros H. unfold parse_json_for_post_content, py_catch in H.
  match type of H with
  | match ?body with Ok _ => _ | Exc _ => _ end = _ => destruct body eqn:Hb
  end.
  - injection H as ->. peel Hb. injection Hb as <- _ _. eapply extract_stype. eassumption.
  - destruct (existsb _ _); discriminate.
Qed.

Lemma comment_parse_stype (raw : Json) (sd : SubmissionData) (t : string) (reps : list Json) :
  parse_json_for_comment_content raw = Ok (Some sd, t, reps) -> stype sd = COMMENT.
Proof.
  intros H. unfold parse_json_for_comment_content, py_catch in H.
  match type of H with
  | match ?body with Ok _ => _ | Exc _ => _ end = _ => destruct body eqn:Hb
  end.
  - injection H as ->. peel Hb. injection Hb as <- _ _. eapply extract_stype. eassumption.
  - destruct (existsb _ _); discriminate.
Qed.

Lemma reply_parse_stype (raw : Json) (sd : SubmissionData) (t : string) :
  parse_json_for_reply_content raw = Ok (Some sd, t) -> stype sd = REPLY.
Proof.
  intros H. unfold parse_json_for_reply_content, py_catch in H.
  match type of H with
  | match ?body with Ok _ => _ | Exc _ => _ end = _ => destruct body eqn:Hb
  end.
  - injection H as ->. peel Hb. injection Hb as <- _. eapply extract_stype. eassumption.
  - destruct (existsb _ _); discriminate.
Qed.

Lemma one_row_appends {A} (P : Row -> Prop) (m : M A) : one_row P m -> appends P m.
Proof. intros H db. destruct (H db) as [new [H1 [_ H2]]]. exists new. auto. Qed.

Lemma one_row_ret {A} (P : Row -> Prop) (a : A) : one_row P (ret a).
Proof. intros db. exists []. simpl. rewrite app_nil_r. auto. Qed.

Lemma validate_and_insert_rows (vld : string -> list string) (osd : option SubmissionData)
  (text : string) (ty : SubmissionType) :
  (forall sd, osd = Some sd -> stype sd = ty) ->
  one_row (validated_row vld ty) (validate_and_insert vld osd text).
Proof.
  intros Hty db. unfold validate_and_insert. destruct osd as [sd|]; [|apply one_row_ret].
  destruct (String.eqb_spec text ""); [apply one_row_ret|].
  destruct (vld text) as [|t ts] eqn:Hv; [apply one_row_ret|].
  exists [(t :: ts, sd)]. split; [reflexivity|]. split; [simpl; lia|].
  constructor; [|constructor]. unfold validated_row. cbn [fst snd].
  split; [apply Hty; reflexivity|]. split; [discriminate|]. exists text. auto.
Qed.

Lemma post_task_rows (api : Req -> option Json) (vld : string -> list string) (pid : Json) :
  one_row (validated_row vld POST) (fetch_post_data_and_comment_ids api vld pid).
Proof.
  intros db. unfold fetch_post_data_and_comment_ids.
  destruct (api (ReqPost pid)) as [raw|]; [|apply one_row_ret].
  destruct (negb (truthy raw)); [apply one_row_ret|].
  destruct (parse_json_for_post_content raw) as [[[osd t] ids]|e] eqn:Hp.
  - rewrite (bindM_ok _ _ db db _ (eq_refl : lift _ db = (Ok (osd, t, ids), db))).
    destruct (validate_and_insert_rows vld osd t POST) with (db := db) as [new [H1 [H2 H3]]].
    { intros sd ->. eapply post_parse_stype. exact Hp. }
    destruct (validate_and_insert vld osd t db) as [r db'] eqn:E. cbn [snd] in H1. subst db'.
    destruct r as [u|e].
    + rewrite (bindM_ok _ _ _ _ _ E). exists new. auto.
    + rewrite (bindM_exc _ _ _ _ _ E). exists new. auto.
  - exists []. unfold bindM, lift. simpl. rewrite app_nil_r. auto.
Qed.

Lemma comment_task_rows (api : Req -> option Json) (vld : string -> list string) (cid pid : Json) :
  one_row (validated_row vld COMMENT) (fetch_comment_data api vld cid pid).
Proof.
  intros db. unfold fetch_comment_data.
  destruct (api (ReqComment pid cid)) as [raw|]; [|apply one_row_ret].
  destruct (negb (truthy raw)); [apply one_row_ret|].
  destruct (parse_json_for_comment_content raw) as [[[osd t] reps]|e] eqn:Hp.
  - rewrite (bindM_ok _ _ db db _ (eq_refl : lift _ db = (Ok (osd, t, reps), db))).
    destruct (validate_and_insert_rows vld osd t COMMENT) with (db := db) as [new [H1 [H2 H3]]].
    { intros sd ->. eapply comment_parse_stype. exact Hp. }
    destruct (validate_and_insert vld osd t db) as [r db'] eqn:E. cbn [snd] in H1. subst db'.
    destruct r as [u|e].
    + rewrite (bindM_ok _ _ _ _ _ E). exists new. auto.
    + rewrite (bindM_exc _ _ _ _ _ E). exists new. auto.
  - exists []. unfold bindM, lift. simpl. rewrite app_nil_r. auto.
Qed.

Lemma reply_task_rows (vld : string -> list string) (reply : Json) :
  one_row (validated_row vld REPLY) (fetch_reply_data vld reply).
Proof.
  intros db. unfold fetch_reply_data.
  destruct (parse_json_for_reply_content reply) as [[osd t]|e] eqn:Hp.
  - rewrite (bindM_ok _ _ db db _ (eq_refl : lift _ db = (Ok (osd, t), db))).
    apply validate_and_insert_rows. intros sd ->. eapply reply_parse_stype. exact Hp.
  - exists []. unfold bindM, lift. simpl. rewrite app_nil_r. auto.
Qed.

Lemma gather_appends {A} (P : Row -> Prop) (ms : list (M A)) :
  Forall (appends P) ms -> appends P (gather ms).
Proof.
  induction 1 as [|m ms Hm _ IH]; intros db.
  - exists []. simpl. rewrite app_nil_r. auto.
  - cbn [gather]. destruct (Hm db) as [n1 [H1 F1]].
    destruct (m db) as [[a|e] db1] eqn:E; cbn [snd] in H1; subst db1.
    + rewrite (bindM_ok _ _ _ _ _ E). destruct (IH (db ++ n1)) as [n2 [H2 F2]].
      destruct (gather ms (db ++ n1)) as [[r|e] db2] eqn:E2; cbn [snd] in H2; subst db2.
      * rewrite (bindM_ok _ _ _ _ _ E2). exists (n1 ++ n2). cbn. rewrite app_assoc.
        split; [reflexivity|]. apply Forall_app; auto.
      * rewrite (bindM_exc _ _ _ _ _ E2). exists (n1 ++ n2). cbn. rewrite app_assoc.
        split; [reflexivity|]. apply Forall_app; auto.
    + rewrite (bindM_exc _ _ _ _ _ E). exists n1. auto.
Qed.

Lemma Forall_map_appends {A B} (P : Row -> Prop) (f : A -> M B) (l : list A) :
  (forall a, appends P (f a)) -> Forall (appends P) (map f l).
Proof. intros H. apply Forall_forall. intros m Hm. apply in_map_iff in Hm as [a [<- _]]. apply H. Qed.

End RowFacts.

Import RowFacts.

(** Each task inserts at most one row: [fetch_post_data_and_comment_ids]
    a POST row, [fetch_comment_data] a COMMENT row, [fetch_reply_data] a
    REPLY row; the row's ticker list is non-empty and is what the validator
    returned for a non-empty text, and earlier rows are left untouched. *)
Theorem task_inserts_at_most_one_row (api : Req -> option Json) (vld : string -> list string) :
  (forall pid db, exists new,
     snd (fetch_post_data_and_comment_ids api vld pid db) = db ++ new /\
     List.length new <= 1 /\ Forall (validated_row vld POST) new) /\
  (forall cid pid db, exists new,
     snd (fetch_comment_data api vld cid pid db) = db ++ new /\
     List.length new <= 1 /\ Forall (validated_row vld COMMENT) new) /\
  (forall reply db, exists new,
     snd (fetch_reply_data vld reply db) = db ++ new /\
     List.length new <= 1 /\ Forall (validated_row vld REPLY) new).
Proof.
  split; [|split].
  - intros pid. exact (post_task_rows api vld pid).
  - intros cid pid. exact (comment_task_rows api vld cid pid).
  - intros reply. exact (reply_task_rows vld reply).
Qed.

(** A [process] run only appends to the insert log, in tier order: first
    the POST rows, then the COMMENT rows, then the REPLY rows (each tier is
    awaited before the next is built), every row with a non-empty ticker
    list; also when the run stops on an exception. *)
Theorem process_rows_in_tier_order (api : Req -> option Json) (vld : string -> list string)
  (db : list Row) :
  exists posts comments replies,
    snd (process api vld db) = db ++ posts ++ comments ++ replies /\
    Forall (validated_row vld POST) posts /\
    Forall (validated_row vld COMMENT) comments /\
    Forall (validated_row vld REPLY) replies.
Proof.
  assert (Hnil : exists posts comments replies : list Row,
            db = db ++ posts ++ comments ++ replies /\
            Forall (validated_row vld POST) posts /\
            Forall (validated_row vld COMMENT) comments /\
            Forall (validated_row vld REPLY) replies)
    by (exists [], [], []; rewrite !app_nil_r; auto).
  unfold process.
  destruct (api ReqListing) as [raw|]; [|exact Hnil].
  destruct (negb (truthy raw)); [exact Hnil|].
  destruct (parse_json_for_post_ids raw) as [post_ids|e] eqn:Hp;
    [|rewrite (bindM_exc _ _ db db e (eq_refl : lift (Exc e) db = (Exc e, db))); exact Hnil].
  rewrite (bindM_ok _ _ db db _ (eq_refl : lift (Ok post_ids) db = (Ok post_ids, db))).
  destruct (gather_appends (validated_row vld POST) (map (fetch_post_data_and_comment_ids api vld) post_ids)
              (Forall_map_appends _ _ _ (fun pid => one_row_appends _ _ (post_task_rows api vld pid))) db)
    as [np [H1 F1]].
  destruct (gather (map (fetch_post_data_and_comment_ids api vld) post_ids) db) as [[post_results|e] db1] eqn:E1;
    cbn [snd] in H1; subst db1;
    [|rewrite (bindM_exc _ _ _ _ _ E1); exists np, [], []; rewrite !app_nil_r; auto].
  rewrite (bindM_ok _ _ _ _ _ E1).
  destruct (comment_task_args post_ids 0 post_results) as [args|e] eqn:Ha;
    [|rewrite (bindM_exc _ _ (db ++ np) (db ++ np) e (eq_refl : lift (Exc e) (db ++ np) = (Exc e, db ++ np)));
      exists np, [], []; rewrite !app_nil_r; auto].
  rewrite (bindM_ok _ _ (db ++ np) (db ++ np) _ (eq_refl : lift (Ok args) (db ++ np) = (Ok args, db ++ np))).
  destruct (gather_appends (validated_row vld COMMENT)
              (map (fun a => fetch_comment_data api vld (fst a) (snd a)) args)
              (Forall_map_appends _ _ _ (fun a => one_row_appends _ _ (comment_task_rows api vld (fst a) (snd a))))
              (db ++ np)) as [nc [H2 F2]].
  destruct (gather (map (fun a => fetch_comment_data api vld (fst a) (snd a)) args) (db ++ np))
    as [[comment_results|e] db2] eqn:E2; cbn [snd] in H2; subst db2;
    [|rewrite (bindM_exc _ _ _ _ _ E2); exists np, nc, []; rewrite <- app_assoc, !app_nil_r; auto].
  rewrite (bindM_ok _ _ _ _ _ E2).
  destruct (gather_appends (validated_row vld REPLY) (map (fetch_reply_data vld) (List.concat comment_results))
              (Forall_map_appends _ _ _ (fun r => one_row_appends _ _ (reply_task_rows vld r)))
              ((db ++ np) ++ nc)) as [nr [H3 F3]].
  destruct (gather (map (fetch_reply_data vld) (List.concat comment_results)) ((db ++ np) ++ nc))
    as [[u|e] db3] eqn:E3; cbn [snd] in H3; subst db3.
  - rewrite (bindM_ok _ _ _ _ _ E3). exists np, nc, nr. rewrite <- !app_assoc. auto.
  - rewrite (bindM_exc _ _ _ _ _ E3). exists np, nc, nr. rewrite <- !app_assoc. auto.
Qed.
